(** * Files-To-DB: spreadsheet / PDF to SQLite conversion

    A shallow embedding of [src/db_converter.py] and [src/converter.py]
    (identifier clean-up, per-sheet materialisation, preview, PDF text
    fallback) together with the properties established about them.

    Conventions of the embedding.
    - A Python [str] is a Rocq [string]; a character is read as the code
      point with the same number, so the development covers text whose code
      points lie in 0..255 (ASCII and the Latin-1 supplement).  On that range
      [str.lower], [str.isalnum] and the white space removed by [str.strip]
      act character by character and are tabulated below.  What is proved of
      the two clean-up expressions is worded so that it reads true of any
      text: relative to [lower] and [isalnum], or for ASCII input.
    - A cell is text, an integer, a boolean or a missing value; what SQLite
      keeps of a cell depends on the type pandas declares for its column.
    - A raised exception is the left injection of a sum; state (the SQLite
      file) is passed explicitly and survives a raise.
    - The SQLite file is a finite map from table name to table.
    - Calls into pandas, sqlite3, openpyxl, tabula and PyPDF2 are modelled by their
      observable behaviour on the values the program hands them; each such
      definition says so in its comment. *)

From Stdlib Require Import ZArith NArith Lia Ascii String DecimalString DecimalZ DecimalPos DecimalFacts.
From stdpp Require Import base option list strings gmap fin_maps.

Local Open Scope string_scope.
Local Open Scope list_scope.

(** ** Python characters and strings *)

Module PyStr.

Definition code (c : ascii) : N := N_of_ascii c.

Definition between (lo hi : N) (c : ascii) : bool :=
  ((lo <=? code c) && (code c <=? hi))%N.

(** [c.isupper()] restricted to the characters [c.lower()] changes:
    A-Z, and in Latin-1 U+00C0..U+00D6 and U+00D8..U+00DE. *)
Definition has_lower (c : ascii) : bool :=
  between 65 90 c || between 192 214 c || between 216 222 c.

(** [c.lower()] for a single character. *)
Definition lower_char (c : ascii) : ascii :=
  if has_lower c then ascii_of_N (code c + 32) else c.

(** [c.isalnum()]: letters, decimal digits, and the Latin-1 characters
    Python counts as alphabetic or numeric (U+00AA, U+00B2, U+00B3, U+00B5,
    U+00B9, U+00BA, U+00BC..U+00BE, U+00C0..U+00FF except U+00D7, U+00F7). *)
Definition isalnum (c : ascii) : bool :=
  between 48 57 c || between 65 90 c || between 97 122 c
  || between 170 170 c || between 178 179 c || between 181 181 c
  || between 185 186 c || between 188 190 c || between 192 214 c
  || between 216 246 c || between 248 255 c.

(** White space in the sense of [str.strip()] and [str.isspace()]. *)
Definition isspace (c : ascii) : bool :=
  between 9 13 c || between 28 32 c || between 133 133 c
  || between 160 160 c.

Definition eqc (a b : ascii) : bool := Ascii.eqb a b.

(** [s.lower()].  On the strings of this development every character lowers
    to exactly one character.  That is not so for all of Unicode (U+0130
    lowers to two characters, and a capital sigma lowers by its context), so
    what is stated of the clean-up of arbitrary text is stated relative to
    [lower], and spelled out character by character for ASCII input only. *)
Fixpoint lower (s : string) : string :=
  match s with
  | EmptyString => EmptyString
  | String c r => String (lower_char c) (lower r)
  end.

(** [s.replace(old, new)] for one-character [old] and [new], the only form
    the program uses. *)
Fixpoint replace (old new : ascii) (s : string) : string :=
  match s with
  | EmptyString => EmptyString
  | String c r => String (if eqc c old then new else c) (replace old new r)
  end.

(** [''.join(parts)] *)
Fixpoint join (parts : list string) : string :=
  match parts with
  | [] => EmptyString
  | p :: ps => p +:+ join ps
  end.

(** The characters of a string, as a [for char in s] loop visits them:
    each one is itself a one-character string. *)
Fixpoint chars (s : string) : list ascii :=
  match s with
  | EmptyString => []
  | String c r => c :: chars r
  end.

Definition char_str (c : ascii) : string := String c EmptyString.

(** Cut a string at every character satisfying [p]; the pieces between two
    cuts may be empty and the result is never the empty list. *)
Fixpoint split_where (p : ascii → bool) (s : string) : list string :=
  match s with
  | EmptyString => [EmptyString]
  | String c r =>
      if p c then EmptyString :: split_where p r
      else match split_where p r with
           | w :: ws => String c w :: ws
           | [] => [char_str c]
           end
  end.

(** [s.split(sep)] for a one-character separator. *)
Definition split (sep : ascii) (s : string) : list string :=
  split_where (λ c, eqc c sep) s.

(** [str(n)] for an integer. *)
Definition of_int (n : Z) : string := NilZero.string_of_int (Z.to_int n).

Fixpoint lstrip (s : string) : string :=
  match s with
  | EmptyString => EmptyString
  | String c r => if isspace c then lstrip r else s
  end.

Fixpoint rstrip (s : string) : string :=
  match s with
  | EmptyString => EmptyString
  | String c r =>
      match rstrip r with
      | EmptyString => if isspace c then EmptyString else char_str c
      | r' => String c r'
      end
  end.

(** [s.strip()] *)
Definition strip (s : string) : string := rstrip (lstrip s).

(** Truth value of a string: [if s:] holds for non-empty [s]. *)
Definition truthy (s : string) : bool :=
  match s with EmptyString => false | _ => true end.

(** [x in s] for a character. *)
Fixpoint mem (x : ascii) (s : string) : bool :=
  match s with
  | EmptyString => false
  | String c r => eqc c x || mem x r
  end.

End PyStr.

(** ** Identifier clean-up (the two expressions of [excel_to_database]) *)

(** [col.lower().replace(' ', '_').replace('-', '_')] *)
Definition sanitize_column (col : string) : string :=
  PyStr.replace "-" "_" (PyStr.replace " " "_" (PyStr.lower col)).

(** The guard of the generator: [char.isalnum() or char == '_']. *)
Definition retained (char : ascii) : bool :=
  PyStr.isalnum char || PyStr.eqc char "_".

(** [''.join(char for char in sheet_name
             if char.isalnum() or char == '_').lower()] *)
Definition sanitize_table (sheet_name : string) : string :=
  PyStr.lower
    (PyStr.join (map PyStr.char_str (filter (λ ch, retained ch = true) (PyStr.chars sheet_name)))).

(** *** The clean-up rules as the specification words them

    The rules are worded over the characters themselves, without the string
    operations above.  Lower-casing is spelled out for ASCII, where it moves
    A-Z onto a-z and leaves every other character alone; beyond ASCII the
    rules refer to Python's own [lower] and [isalnum]. *)

Definition is_ascii (c : ascii) : bool := (nat_of_ascii c <? 128)%nat.

(** A space or a hyphen becomes an underscore; nothing else changes. *)
Definition underscored (c : ascii) : ascii :=
  if decide (c = " "%char ∨ c = "-"%char) then "_"%char else c.

Definition ascii_lower (c : ascii) : ascii :=
  let n := nat_of_ascii c in
  if ((65 <=? n) && (n <=? 90))%nat then ascii_of_nat (n + 32) else c.

(** Column rule on ASCII: lower-case, then underscores for spaces and
    hyphens. *)
Definition ascii_column_rule (c : ascii) : ascii := underscored (ascii_lower c).

(** The ASCII characters that are alphanumeric or the underscore: 0-9, A-Z,
    a-z and _. *)
Definition ascii_word (c : ascii) : bool :=
  let n := nat_of_ascii c in
  (((48 <=? n) && (n <=? 57)) || ((65 <=? n) && (n <=? 90))
   || ((97 <=? n) && (n <=? 122)) || (n =? 95))%nat.

(** The characters the table rule keeps. *)
Definition kept (c : ascii) : Prop := PyStr.isalnum c = true ∨ c = "_"%char.

#[global] Instance kept_dec (c : ascii) : Decision (kept c).
Proof. unfold kept. apply _. Defined.

(** *** The two expressions, character by character *)

(** What the two [replace] calls do to a character of the lower-cased
    name. *)
Definition underscore_rule (c : ascii) : ascii :=
  if PyStr.eqc c " " || PyStr.eqc c "-" then "_"%char else c.

(** What [sanitize_column] does to a character. *)
Definition column_rule (c : ascii) : ascii :=
  if PyStr.eqc c " " || PyStr.eqc c "-" then "_"%char else PyStr.lower_char c.

(** ** Data model *)

(** A cell value: text, an integer (a Python [int], of any size), a boolean
    or a missing value.  The program never inspects cells; it only moves
    them.  Floating-point and date cells are not part of the model. *)
Inductive cell : Type :=
| CText (s : string)
| CNumber (z : Z)
| CBool (b : bool)
| CNull.

(** A column label as [pd.read_excel] hands it over: header text, or, when
    the header cell holds something else (a number, a boolean, a date), an
    object of another Python type.  Of such an object the program only ever
    meets the name of its type ([int], [float], [bool], [datetime], ...):
    none of these types has a [lower] attribute. *)
Inductive label : Type :=
| LStr (s : string)
| LObj (type_name : string).

(** A pandas [DataFrame]: column labels in order (repetitions allowed) and
    rows in order.  [L] is the type of the labels: [label] as loaded, [string]
    once [df.columns] has been reassigned by [excel_to_database]. *)
Record DataFrame (L : Type) : Type := mkFrame {
  columns : list L;
  data : list (list cell)
}.
Arguments mkFrame {L} _ _.
Arguments columns {L} _.
Arguments data {L} _.

(** [len(df)] *)
Definition len {L} (df : DataFrame L) : nat := length (data df).

(** [df.empty] *)
Definition frame_empty {L} (df : DataFrame L) : bool :=
  match columns df, data df with
  | [], _ | _, [] => true
  | _, _ => false
  end.

(** A spreadsheet file as pandas reads it: its sheets in workbook order. *)
Abbreviation Workbook := (list (string * DataFrame label)).

(** A table of the SQLite file. *)
Record Table : Type := mkTable {
  t_columns : list string;
  t_rows : list (list cell)
}.

(** The SQLite file behind a connection: its tables by name.  SQLite
    identifies table names up to ASCII case; the keys are the names in the
    lower-case form, which is the only form [excel_to_database] creates. *)
Abbreviation Store := (gmap string Table).

(** Database files by path.  [sqlite3.connect] gives an empty database for a
    path that holds none. *)
Abbreviation Files := (gmap string (gmap string Table)).

Definition connect (fs : Files) (database : string) : Store :=
  default ∅ (fs !! database).

(** Messages of the SQLite engine. *)
Inductive sqlite_error : Type :=
| NoSuchTable (name : string)
| SyntaxErrorNear (token : string)
| DuplicateColumn (name : string)
| TooManyColumns (table : string)
| ReservedName (name : string).

(** Exceptions, by the message they carry. *)
Inductive exn : Type :=
| AttributeError (msg : string)
| ValueError (msg : string)
| SqliteError (e : sqlite_error)
| OverflowError (msg : string)
| Exception (msg : string).

(** One entry of [conversion_info]. *)
Record Info : Type := mkInfo {
  sheet_name : string;
  table_name : string;
  rows : nat;
  info_columns : list string
}.

(** ** Python dictionaries with insertion order *)

(** [d[k] = v]: an existing key keeps its place and takes the new value, a
    new key goes last. *)
Fixpoint dict_set {V} (k : string) (v : V) (d : list (string * V)) : list (string * V) :=
  match d with
  | [] => [(k, v)]
  | (k', v') :: r =>
      if String.eqb k' k then (k', v) :: r else (k', v') :: dict_set k v r
  end.

Fixpoint dict_get {V} (k : string) (d : list (string * V)) : option V :=
  match d with
  | [] => None
  | (k', v') :: r => if String.eqb k' k then Some v' else dict_get k r
  end.

(** [get_excel_sheets(file)]: the sheet names, in workbook order. *)
Definition get_excel_sheets (file : Workbook) : list string := file.*1.

(** ** Library calls made by [excel_to_database] *)

(** [pd.read_excel(excel_file, sheet_name=sheet)] for a sheet given by name:
    that sheet's frame, or a [ValueError] when the workbook has none of that
    name. *)
Definition read_excel (excel_file : Workbook) (sheet : string) : exn + DataFrame label :=
  match dict_get sheet excel_file with
  | Some df => inr df
  | None => inl (ValueError ("Worksheet named '" +:+ sheet +:+ "' not found"))
  end.

(** [pd.read_excel(excel_file, sheet_name=None)]: a dictionary of every
    sheet, in workbook order. *)
Definition read_excel_all (excel_file : Workbook) : list (string * DataFrame label) :=
  fold_left (λ d kv, dict_set kv.1 kv.2 d) excel_file [].

(** The comprehension [{sheet: pd.read_excel(...) for sheet in sheet_names}];
    a raise inside it abandons the dictionary. *)
Fixpoint read_selected (excel_file : Workbook) (sheet_names : list string)
    (acc : list (string * DataFrame label)) : exn + list (string * DataFrame label) :=
  match sheet_names with
  | [] => inr acc
  | sheet :: rest =>
      match read_excel excel_file sheet with
      | inl e => inl e
      | inr df => read_selected excel_file rest (dict_set sheet df acc)
      end
  end.

(** pandas' check of an SQLite identifier before it is quoted: it refuses the
    empty name and a name holding a NUL character. *)
Definition check_identifier (name : string) : option exn :=
  match name with
  | EmptyString => Some (ValueError "Empty table or column name specified")
  | _ => if PyStr.mem "000" name
         then Some (ValueError "SQLite identifier cannot contain NULs")
         else None
  end.

Fixpoint check_identifiers (names : list string) : option exn :=
  match names with
  | [] => None
  | n :: r => match check_identifier n with
              | Some e => Some e
              | None => check_identifiers r
              end
  end.

(** SQLite compares names without regard to the case of A-Z. *)
Definition sql_fold_char (c : ascii) : ascii :=
  if PyStr.between 65 90 c then ascii_of_N (PyStr.code c + 32) else c.

Fixpoint sql_fold (s : string) : string :=
  match s with
  | EmptyString => EmptyString
  | String c r => String (sql_fold_char c) (sql_fold r)
  end.

(** The first column whose name repeats an earlier one. *)
Fixpoint first_duplicate (seen cols : list string) : option string :=
  match cols with
  | [] => None
  | c :: r =>
      if bool_decide (sql_fold c ∈ seen) then Some c
      else first_duplicate (sql_fold c :: seen) r
  end.

(** The most columns a table may have (SQLite's default). *)
Definition max_columns : nat := 2000.

(** What SQLite answers to [CREATE TABLE "name" ("c1" .., "c2" ..)]: names
    starting with [sqlite_] are reserved; reading the columns in order, a
    name may not repeat and there may not be more than [max_columns]; and a
    table needs at least one column. *)
Definition create_table_error (name : string) (cols : list string) : option sqlite_error :=
  if String.prefix "sqlite_" (sql_fold name) then Some (ReservedName name)
  else match first_duplicate [] (take max_columns cols) with
       | Some c => Some (DuplicateColumn c)
       | None =>
           if (max_columns <? length cols)%nat then Some (TooManyColumns name)
           else match cols with
                | [] => Some (SyntaxErrorNear ")")
                | _ => None
                end
       end.

(** What [sqlite3] can bind as a parameter of the INSERT: an integer must
    fit SQLite's 64-bit INTEGER; text, booleans and missing values always
    do. *)
Definition storable (c : cell) : bool :=
  match c with
  | CNumber z => ((- 2 ^ 63 <=? z) && (z <? 2 ^ 63))%Z
  | _ => true
  end.

Definition storable_rows (rows : list (list cell)) : bool :=
  forallb (forallb storable) rows.

(** The two column types pandas declares for the cells of the model. *)
Inductive sql_type : Type :=
| INTEGER
| TEXT.

Definition is_missing (c : cell) : bool :=
  match c with CNull => true | _ => false end.

Definition is_integer (c : cell) : bool :=
  match c with CNumber _ => true | _ => false end.

Definition is_boolean (c : cell) : bool :=
  match c with CBool _ => true | _ => false end.

(** The cells of column [j], top to bottom. *)
Definition column_cells (j : nat) (rows : list (list cell)) : list cell :=
  omap (λ row, row !! j) rows.

(** The type pandas declares for a column: it looks at the cells that are
    not missing, and declares INTEGER when all of them are integers or all
    of them are booleans, TEXT otherwise (text, a mixture, or nothing but
    missing values). *)
Definition sql_type_name (cells : list cell) : sql_type :=
  match List.filter (λ c, negb (is_missing c)) cells with
  | [] => TEXT
  | present =>
      if forallb is_integer present || forallb is_boolean present
      then INTEGER else TEXT
  end.

(** The value SQLite keeps for a cell.  [sqlite3] binds a boolean as the
    integer 1 or 0; a column declared TEXT then turns an integer into its
    decimal text. *)
Definition stored_cell (type : sql_type) (c : cell) : cell :=
  match c, type with
  | CBool b, INTEGER => CNumber (if b then 1 else 0)
  | CBool b, TEXT => CText (if b then "1" else "0")
  | CNumber z, TEXT => CText (PyStr.of_int z)
  | _, _ => c
  end.

(** The rows of a table as SQLite keeps them. *)
Definition stored_rows (rows : list (list cell)) : list (list cell) :=
  map (imap (λ j c, stored_cell (sql_type_name (column_cells j rows)) c)) rows.

(** [df.to_sql(name, conn, if_exists='replace', index=False)].
    pandas first builds the statement, which validates the identifiers and
    fixes the type of each column; then drops a table of that name if there
    is one; then creates the table; then inserts every row in one
    transaction, and commits.  A refusal by
    SQLite to create the table comes after the drop, which SQLite has made
    permanent by then.  An integer outside the 64-bit range makes the insert
    raise [OverflowError]; pandas rolls the insert back, which leaves the
    table just created, without any row.  Returns the file as the call
    leaves it and the exception raised, if any. *)
Definition to_sql (df : DataFrame string) (name : string) (conn : Store)
    : Store * option exn :=
  match check_identifiers (columns df ++ [name]) with
  | Some e => (conn, Some e)
  | None =>
      match create_table_error name (columns df) with
      | Some e => (delete name conn, Some (SqliteError e))
      | None =>
          if storable_rows (data df)
          then (<[name := mkTable (columns df) (stored_rows (data df))]> conn, None)
          else (<[name := mkTable (columns df) []]> conn,
                Some (OverflowError "Python int too large to convert to SQLite INTEGER"))
      end
  end.

(** ** [excel_to_database] *)

(** The list comprehension over [df.columns]; [col.lower()] raises for a
    label that is not a string. *)
Fixpoint clean_columns (cols : list label) : exn + list string :=
  match cols with
  | [] => inr []
  | LStr col :: r =>
      match clean_columns r with
      | inl e => inl e
      | inr r' => inr (sanitize_column col :: r')
      end
  | LObj type_name :: _ =>
      inl (AttributeError ("'" +:+ type_name +:+ "' object has no attribute 'lower'"))
  end.

(** One turn of [for sheet_name, df in excel_data.items()]: the file as the
    turn leaves it, and the entry appended to [conversion_info] or the
    exception that ends the loop. *)
Definition convert_sheet (sheet_name : string) (df : DataFrame label)
    (conn : Store) : Store * (exn + Info) :=
  match clean_columns (columns df) with
  | inl e => (conn, inl e)
  | inr cols =>
      let df := mkFrame cols (data df) in
      let table_name := sanitize_table sheet_name in
      match to_sql df table_name conn with
      | (conn, Some e) => (conn, inl e)
      | (conn, None) =>
          (conn, inr (mkInfo sheet_name table_name (len df) (columns df)))
      end
  end.

(** The loop itself. *)
Fixpoint convert_sheets (excel_data : list (string * DataFrame label))
    (conn : Store) (conversion_info : list Info) : Store * (exn + list Info) :=
  match excel_data with
  | [] => (conn, inr conversion_info)
  | (sheet_name, df) :: rest =>
      match convert_sheet sheet_name df conn with
      | (conn, inl e) => (conn, inl e)
      | (conn, inr info) => convert_sheets rest conn (conversion_info ++ [info])
      end
  end.

(** The [if sheet_names is None ... else ...] that builds [excel_data]. *)
Definition load_sheets (excel_file : Workbook) (sheet_names : option (list string))
    : exn + list (string * DataFrame label) :=
  match sheet_names with
  | None => inr (read_excel_all excel_file)
  | Some sheet_names => read_selected excel_file sheet_names []
  end.

(** [excel_to_database(excel_file, database_name, sheet_names)], run on the
    files [fs].  The database file is left as the last statement left it,
    whether the call returns or raises ([finally: conn.close()]); only a
    normal return hands [conversion_info] to the caller. *)
Definition excel_to_database (excel_file : Workbook) (database_name : string)
    (sheet_names : option (list string)) (fs : Files)
    : Files * (exn + (string * list Info)) :=
  let conn := connect fs database_name in
  match load_sheets excel_file sheet_names with
  | inl e => (<[database_name := conn]> fs, inl e)
  | inr excel_data =>
      match convert_sheets excel_data conn [] with
      | (conn, inl e) => (<[database_name := conn]> fs, inl e)
      | (conn, inr conversion_info) =>
          (<[database_name := conn]> fs, inr (database_name, conversion_info))
      end
  end.

(** A sheet that one turn of the loop converts; the outcome of a turn does
    not depend on the file it writes to ([convert_sheet_outcome]). *)
Definition convertible (sheet_name : string) (df : DataFrame label) : bool :=
  match (convert_sheet sheet_name df ∅).2 with
  | inr _ => true
  | inl _ => false
  end.

(** ** [get_table_preview] *)

(** The text handed to [pd.read_sql]:
    [f"SELECT * FROM {table_name} LIMIT {rows}"]. *)
Definition preview_sql (table_name : string) (rows : Z) : string :=
  "SELECT * FROM " +:+ table_name +:+ " LIMIT " +:+ PyStr.of_int rows.

(** *** The SQLite engine on the statements this text can form

    SQLite is modelled on a fragment of its language only: statements made
    of blank-separated lexemes of the forms listed in [sqlite_select].  Any
    other text is [Outside] the model, and nothing is claimed about it. *)

Module Sql.

(** Blanks of the SQLite tokenizer: tab, line feed, form feed, carriage
    return, space. *)
Definition blank (c : ascii) : bool :=
  PyStr.between 9 10 c || PyStr.between 12 13 c || PyStr.between 32 32 c.

(** The maximal runs of non-blank characters. *)
Definition lexemes (sql : string) : list string :=
  filter (λ w, PyStr.truthy w = true) (PyStr.split_where blank sql).

Definition ascii_letter (c : ascii) : bool :=
  PyStr.between 65 90 c || PyStr.between 97 122 c.

Definition ascii_digit (c : ascii) : bool := PyStr.between 48 57 c.

Definition ident_start (c : ascii) : bool := ascii_letter c || PyStr.eqc c "_".

Definition ident_char (c : ascii) : bool :=
  ascii_letter c || ascii_digit c || PyStr.eqc c "_".

(** A lexeme that is one identifier token when written bare. *)
Definition plain_identifier (w : string) : bool :=
  match w with
  | EmptyString => false
  | String c r => ident_start c && forallb ident_char (PyStr.chars r)
  end.

(** A lexeme that is one integer literal. *)
Definition all_digits (w : string) : bool :=
  PyStr.truthy w && forallb ascii_digit (PyStr.chars w).

(** The keywords of SQLite (https://sqlite.org/lang_keywords.html). *)
Definition keywords : list string :=
  [ "abort"; "action"; "add"; "after"; "all"; "alter"; "always"; "analyze";
    "and"; "as"; "asc"; "attach"; "autoincrement"; "before"; "begin";
    "between"; "by"; "cascade"; "case"; "cast"; "check"; "collate";
    "column"; "commit"; "conflict"; "constraint"; "create"; "cross";
    "current"; "current_date"; "current_time"; "current_timestamp";
    "database"; "default"; "deferrable"; "deferred"; "delete"; "desc";
    "detach"; "distinct"; "do"; "drop"; "each"; "else"; "end"; "escape";
    "except"; "exclude"; "exclusive"; "exists"; "explain"; "fail";
    "filter"; "first"; "following"; "for"; "foreign"; "from"; "full";
    "generated"; "glob"; "group"; "groups"; "having"; "if"; "ignore";
    "immediate"; "in"; "index"; "indexed"; "initially"; "inner"; "insert";
    "instead"; "intersect"; "into"; "is"; "isnull"; "join"; "key"; "last";
    "left"; "like"; "limit"; "match"; "materialized"; "natural"; "no";
    "not"; "nothing"; "notnull"; "null"; "nulls"; "of"; "offset"; "on";
    "or"; "order"; "others"; "outer"; "over"; "partition"; "plan";
    "pragma"; "preceding"; "primary"; "query"; "raise"; "range";
    "recursive"; "references"; "regexp"; "reindex"; "release"; "rename";
    "replace"; "restrict"; "returning"; "right"; "rollback"; "row"; "rows";
    "savepoint"; "select"; "set"; "table"; "temp"; "temporary"; "then";
    "ties"; "to"; "transaction"; "trigger"; "unbounded"; "union"; "unique";
    "update"; "using"; "vacuum"; "values"; "view"; "virtual"; "when";
    "where"; "window"; "with"; "without" ].

(** Names the engine answers for by itself: its schema tables and its
    table-valued functions (which of the latter exist depends on how the
    engine was built; the usual ones are listed). *)
Definition engine_name (w : string) : bool :=
  String.prefix "sqlite_" w || String.prefix "pragma_" w
  || bool_decide (w ∈ ["json_each"; "json_tree"; "dbstat"; "bytecode";
                       "tables_used"; "fts3tokenize"; "fts4aux";
                       "generate_series"]).

(** The table a bare lexeme names, in the form the store is keyed by; [None]
    when the lexeme is not a plain identifier, is a keyword, or is a name
    of the engine's own. *)
Definition table_ref (w : string) : option string :=
  let name := sql_fold w in
  if plain_identifier w && negb (bool_decide (name ∈ keywords))
     && negb (engine_name name)
  then Some name else None.

Definition is_keyword (kw w : string) : bool := String.eqb (sql_fold w) kw.

(** The integers SQLite holds exactly (64 bits, the least one left out). *)
Definition in_range (z : Z) : option Z :=
  if ((- 2 ^ 63 <? z) && (z <? 2 ^ 63))%Z then Some z else None.

(** The value of a LIMIT operand written as digits or as a minus sign and
    digits, when it fits a 64-bit integer. *)
Definition limit_value (w : string) : option Z :=
  match w with
  | String "-" r =>
      if all_digits r
      then d ← NilZero.uint_of_string r; in_range (- Z.of_uint d)%Z
      else None
  | _ =>
      if all_digits w
      then d ← NilZero.uint_of_string w; in_range (Z.of_uint d)
      else None
  end.

(** [LIMIT n]: the first [n] rows; a negative [n] puts no bound. *)
Definition limit_rows (n : Z) (tbl : Table) : Table :=
  if (n <? 0)%Z then tbl
  else mkTable (t_columns tbl) (take (Z.to_nat n) (t_rows tbl)).

Inductive result : Type :=
| Rows (tbl : Table)
| Fails (e : sqlite_error)
| Outside.

Definition read_table (w : string) (n : Z) (conn : Store) : result :=
  match table_ref w with
  | None => Outside
  | Some name =>
      match conn !! name with
      | Some tbl => Rows (limit_rows n tbl)
      | None => Fails (NoSuchTable w)
      end
  end.

(** The statements modelled, by their lexemes:
    - [SELECT * FROM LIMIT n]: no table, a syntax error at [LIMIT];
    - [SELECT * FROM 123 LIMIT n]: a number where a table is expected, a
      syntax error at the number;
    - [SELECT * FROM t LIMIT n]: reads table [t];
    - [SELECT * FROM t a LIMIT n]: reads table [t] under the alias [a]. *)
Definition sqlite_select (sql : string) (conn : Store) : result :=
  match lexemes sql with
  | s :: star :: f :: rest =>
      if is_keyword "select" s && String.eqb star "*" && is_keyword "from" f
      then
        match rest with
        | [l; n] =>
            if is_keyword "limit" l && bool_decide (is_Some (limit_value n))
            then Fails (SyntaxErrorNear l) else Outside
        | [t; l; n] =>
            match is_keyword "limit" l, limit_value n with
            | true, Some z =>
                if all_digits t then Fails (SyntaxErrorNear t)
                else read_table t z conn
            | _, _ => Outside
            end
        | [t; a; l; n] =>
            match is_keyword "limit" l, limit_value n, table_ref a with
            | true, Some z, Some _ =>
                if all_digits t then Fails (SyntaxErrorNear t)
                else read_table t z conn
            | _, _, _ => Outside
            end
        | _ => Outside
        end
      else Outside
  | _ => Outside
  end.

End Sql.

(** [get_table_preview(database_path, table_name, rows)].  [None] when the
    statement falls outside the modelled fragment of SQLite.  The frame
    holds the cells as the table holds them.  (pandas hands a column of
    integers with missing values back as floating-point numbers of the same
    value; the cell model does not tell these apart.) *)
Definition get_table_preview (database_path table_name : string) (rows : Z)
    (fs : Files) : option (exn + DataFrame string) :=
  let conn := connect fs database_path in
  match Sql.sqlite_select (preview_sql table_name rows) conn with
  | Sql.Rows tbl => Some (inr (mkFrame (t_columns tbl) (t_rows tbl)))
  | Sql.Fails e => Some (inl (SqliteError e))
  | Sql.Outside => None
  end.

(** The default of the [rows] parameter. *)
Definition default_rows : Z := 5.

(** ** [pdf_to_excel] *)

(** A PDF as the two readers see it: the tables [tabula.read_pdf] extracts
    and the text [page.extract_text()] gives for each page. *)
Record Pdf : Type := mkPdf {
  pdf_tables : list (DataFrame label);
  pdf_pages : list string
}.

(** The lines one page contributes:
    [[line.strip() for line in text.split('\n') if line.strip()]], under the
    guard [if text]. *)
Definition page_lines (text : string) : list string :=
  if PyStr.truthy text
  then map PyStr.strip
         (filter (λ line, PyStr.truthy (PyStr.strip line) = true)
                 (PyStr.split "010" text))
  else [].

(** The loop over [pdf_reader.pages], extending [text_data]. *)
Definition collect_text (pages : list string) : list string :=
  fold_left (λ text_data text, text_data ++ page_lines text) pages [].

(** [pd.DataFrame({'Content': text_data})] *)
Definition content_frame (text_data : list string) : DataFrame label :=
  mkFrame [LStr "Content"] (map (λ line, [CText line]) text_data).

(** The loop [for i, table in enumerate(tables)], from index [i]. *)
Fixpoint write_tables (i : nat) (tables : list (DataFrame label)) : Workbook :=
  match tables with
  | [] => []
  | table :: rest =>
      if negb (frame_empty table)
      then ("Sheet" +:+ PyStr.of_int (Z.of_nat (i + 1)), table) :: write_tables (S i) rest
      else write_tables (S i) rest
  end.

(** The sheets handed to the writer inside the [with pd.ExcelWriter(...)]
    block, in the order of the [to_excel] calls. *)
Definition staged_sheets (pdf : Pdf) : Workbook :=
  match pdf_tables pdf with
  | [] =>
      match collect_text (pdf_pages pdf) with
      | [] => []
      | text_data => [("Sheet1", content_frame text_data)]
      end
  | tables => write_tables 0 tables
  end.

(** *** The writer (pandas with the openpyxl engine) *)

(** What makes the writer raise, with the text [str(e)] of the exception. *)
Inductive writer_error : Type :=
| SheetTooLarge (num_rows num_cols : nat)
| IllegalCharacter (value : string)
| NoVisibleSheet.

Definition max_rows : Z := 1048576.
Definition max_cols : Z := 16384.

Definition writer_message (e : writer_error) : string :=
  match e with
  | SheetTooLarge num_rows num_cols =>
      "This sheet is too large! Your sheet size is: "
      +:+ PyStr.of_int (Z.of_nat num_rows) +:+ ", " +:+ PyStr.of_int (Z.of_nat num_cols)
      +:+ " Max sheet size is: " +:+ PyStr.of_int max_rows +:+ ", " +:+ PyStr.of_int max_cols
  | IllegalCharacter value => value +:+ " cannot be used in worksheets."
  | NoVisibleSheet => "At least one sheet must be visible"
  end.

(** The characters openpyxl refuses in a text cell: the control characters
    other than tab, line feed and carriage return. *)
Definition illegal_char (c : ascii) : bool :=
  PyStr.between 0 8 c || PyStr.between 11 12 c || PyStr.between 14 31 c.

(** openpyxl keeps the first 32767 characters of a text value. *)
Definition cell_value (value : string) : string :=
  string_of_list_ascii (take (Z.to_nat 32767) (PyStr.chars value)).

(** openpyxl's check of a text value, made on the characters it keeps. *)
Definition writable (value : string) : bool :=
  negb (existsb illegal_char (PyStr.chars (cell_value value))).

Definition label_text (l : label) : option string :=
  match l with LStr s => Some s | LObj _ => None end.

Definition cell_text (c : cell) : option string :=
  match c with CText s => Some s | _ => None end.

(** The text values of a frame in the order the writer sets the cells: the
    header row, then the body column by column. *)
Definition written_texts (df : DataFrame label) : list string :=
  omap label_text (columns df)
  ++ flat_map (λ j, omap (λ row, row !! j ≫= cell_text) (data df))
              (seq 0 (length (columns df))).

(** [df.to_excel(writer, sheet_name=..., index=False)]: whether the sheet
    was added to the workbook, and what the call raised, if anything.
    pandas refuses a frame beyond the size of a worksheet before it touches
    the workbook; otherwise the sheet is created and the cells are set one
    by one, which stops at the first text value openpyxl refuses. *)
Definition to_excel (df : DataFrame label) : bool * option writer_error :=
  if ((max_rows <? Z.of_nat (len df)) || (max_cols <? Z.of_nat (length (columns df))))%Z
  then (false, Some (SheetTooLarge (len df) (length (columns df))))
  else match List.find (λ v, negb (writable v)) (written_texts df) with
       | Some v => (true, Some (IllegalCharacter (cell_value v)))
       | None => (true, None)
       end.

(** The [to_excel] calls of the block, one after the other: how many sheets
    the workbook has got, and what ended the block early, if anything. *)
Fixpoint write_sheets (sheets : list (string * DataFrame label)) (created : nat)
    : nat * option writer_error :=
  match sheets with
  | [] => (created, None)
  | (_, df) :: rest =>
      match to_excel df with
      | (added, Some e) => (if added then S created else created, Some e)
      | (_, None) => write_sheets rest (S created)
      end
  end.

(** Leaving the [with] block closes the writer, which saves the workbook;
    openpyxl refuses to save a workbook without a sheet. *)
Definition close_writer (created : nat) : option writer_error :=
  match created with
  | O => Some NoVisibleSheet
  | S _ => None
  end.

(** [pdf_to_excel(pdf_path, output_path)]: on return, the sheets that were
    written to [output_path], as the frames handed to the writer.  (What
    [pd.read_excel] later makes of that file is another value: reading
    parses the cells again, and is not modelled for this file.)  An
    exception raised while the writer closes replaces the one that ended the
    block; whatever is raised inside the [try] is raised again under the
    program's own message. *)
Definition pdf_to_excel (pdf : Pdf) : exn + list (string * DataFrame label) :=
  let sheets := staged_sheets pdf in
  let (created, raised) := write_sheets sheets 0 in
  match close_writer created, raised with
  | Some e, _ | None, Some e =>
      inl (Exception ("Error converting PDF to Excel: " +:+ writer_message e))
  | None, None => inr sheets
  end.

(** ** The writes of a conversion, in closed form

    What one turn of the loop does to the file is an assignment to at most
    one table name, fixed by the sheet alone: nothing, the removal of the
    table, the table's new contents, or (when the insert fails) the new
    table without rows. *)

Definition sheet_write (sheet_name : string) (df : DataFrame label)
    : option (string * option Table) :=
  match clean_columns (columns df) with
  | inl _ => None
  | inr cols =>
      let name := sanitize_table sheet_name in
      match check_identifiers (cols ++ [name]) with
      | Some _ => None
      | None =>
          match create_table_error name cols with
          | Some _ => Some (name, None)
          | None =>
              if storable_rows (data df)
              then Some (name, Some (mkTable cols (stored_rows (data df))))
              else Some (name, Some (mkTable cols []))
          end
      end
  end.

Definition apply_write (conn : Store) (w : option (string * option Table)) : Store :=
  match w with
  | None => conn
  | Some (name, content) => partial_alter (λ _, content) name conn
  end.

(** The writes of the loop, up to and including the turn that raises. *)
Fixpoint loop_writes (excel_data : list (string * DataFrame label))
    : list (option (string * option Table)) :=
  match excel_data with
  | [] => []
  | (sheet_name, df) :: rest =>
      sheet_write sheet_name df
      :: (if convertible sheet_name df then loop_writes rest else [])
  end.

(** What a sequence of writes leaves under the name [k], given what was
    there. *)
Definition settle (k : string) (was : option Table)
    (w : option (string * option Table)) : option Table :=
  match w with
  | Some (name, content) => if decide (name = k) then content else was
  | None => was
  end.

(** The entry [conversion_info] gets for a sheet that converts. *)
Definition sheet_info (sheet_name : string) (df : DataFrame label) : option Info :=
  match (convert_sheet sheet_name df ∅).2 with
  | inr info => Some info
  | inl _ => None
  end.

(** The table written for a sheet that converts. *)
Definition sheet_table (df : DataFrame label) : option Table :=
  match clean_columns (columns df) with
  | inr cols => Some (mkTable cols (stored_rows (data df)))
  | inl _ => None
  end.

(** What it takes for a sheet to convert on its own, said of the sheet
    itself: every header is text, not empty and free of NUL; there are
    between one and [max_columns] of them; no two clean to the same column
    name, the case of A-Z disregarded; the sheet name cleans to a table name
    that is not empty and does not start with sqlite_; and every integer
    cell fits 64 bits. *)
Definition sheet_converts (sheet : string) (df : DataFrame label) : Prop :=
  ∃ headers : list string,
    columns df = map LStr headers
    ∧ headers ≠ []
    ∧ (length headers ≤ max_columns)%nat
    ∧ Forall (λ h, h ≠ "" ∧ "000"%char ∉ PyStr.chars h) headers
    ∧ NoDup (map (λ h, sql_fold (sanitize_column h)) headers)
    ∧ sanitize_table sheet ≠ ""
    ∧ String.prefix "sqlite_" (sanitize_table sheet) = false
    ∧ Forall (Forall (λ c, ∀ z, c = CNumber z → (- 2 ^ 63 ≤ z < 2 ^ 63)%Z)) (data df).

(** The dictionary a selection without repetition loads: its sheets, in the
    order of the selection. *)
Definition selected_sheets (excel_file : Workbook) (sheet_names : list string)
    : list (string * DataFrame label) :=
  sheet ← sheet_names;
  match dict_get sheet excel_file with
  | Some df => [(sheet, df)]
  | None => []
  end.

(** The text rows as the specification words them: page after page, each
    page cut into lines, each line trimmed, the empty ones left out. *)
Definition text_lines (pages : list string) : list string :=
  text ← pages;
  filter (λ line, PyStr.truthy line = true) (map PyStr.strip (PyStr.split "010" text)).


(** The keys a comprehension over [sheet_names] adds to a dictionary that
    already has the keys [seen]: each name once, at its first occurrence. *)
Fixpoint first_occurrences_from (seen : gset string) (sheet_names : list string)
    : list string :=
  match sheet_names with
  | [] => []
  | sheet :: rest =>
      if decide (sheet ∈ seen) then first_occurrences_from seen rest
      else sheet :: first_occurrences_from ({[sheet]} ∪ seen) rest
  end.

Definition first_occurrences (sheet_names : list string) : list string :=
  first_occurrences_from ∅ sheet_names.

(** A string made of white space only (the empty string included). *)
Definition blank_text (s : string) : bool :=
  forallb Sql.blank (PyStr.chars s).

(** ASCII capital letters. *)
Definition ascii_upper (c : ascii) : bool := PyStr.between 65 90 c.

(** First and last character of a string. *)
Definition first_char (s : string) : option ascii :=
  match s with
  | EmptyString => None
  | String c _ => Some c
  end.

Definition last_char (s : string) : option ascii := last (PyStr.chars s).

(** ** Example inputs *)

Module Examples.

Definition database : string := "workbook.db".

(** Two sheets with the same two headers. *)
Definition sales_columns : list label := [LStr "Item Name"; LStr "Unit-Price"].

Definition sales_workbook (rows1 rows2 : list (list cell)) : Workbook :=
  [ ("Sales Data", mkFrame sales_columns rows1);
    ("Q1-Report", mkFrame sales_columns rows2) ].

Definition two_rows : list (list cell) :=
  [ [CText "pen"; CNumber 2]; [CText "ink"; CNumber 7] ].

(** Two different headers that clean to the same column name. *)
Definition price_frame : DataFrame label :=
  mkFrame [LStr "Unit Price"; LStr "Unit-Price"] [ [CNumber 1; CNumber 2] ].

Definition item_frame : DataFrame label :=
  mkFrame [LStr "Item"] [ [CText "pen"]; [CText "ink"] ].

(** A PDF without tables whose first page has three lines of text. *)
Definition three_line_pdf : Pdf :=
  mkPdf [] ["Invoice 17" +:+ String "010" ("  pen  2" +:+ String "010" "ink 7")].

(** A PDF without tables and without text, such as a scanned page. *)
Definition blank_pdf : Pdf := mkPdf [] [""; "  " +:+ String "010" " "].


(** The files after converting a workbook with the one sheet "Items". *)
Definition items_files : Files :=
  (excel_to_database [("Items", item_frame)] database None ∅).1.

(** A header cell holding the number 2021. *)
Definition year_frame : DataFrame label :=
  mkFrame [LStr "Item"; LObj "int"] [ [CText "pen"; CNumber 3] ].

(** A sheet whose second row holds 2^63, one more than SQLite's largest
    integer. *)
Definition big_frame : DataFrame label :=
  mkFrame [LStr "Count"] [ [CNumber 5]; [CNumber 9223372036854775808] ].

End Examples.

(** * Properties *)

(** ** Characters *)

(** Case analysis over the 256 characters. *)
Ltac each_char c :=
  destruct c as [[] [] [] [] [] [] [] []].

Lemma column_char (c : ascii) :
  (let l := PyStr.lower_char c in
   let u := if PyStr.eqc l " " then "_"%char else l in
   if PyStr.eqc u "-" then "_"%char else u) = column_rule c.
Proof. each_char c; reflexivity. Qed.

Lemma sql_fold_lower_char (c : ascii) :
  sql_fold_char (PyStr.lower_char c) = PyStr.lower_char c.
Proof. each_char c; reflexivity. Qed.

(** ** Strings *)

Lemma chars_inj (a b : string) : PyStr.chars a = PyStr.chars b → a = b.
Proof.
  revert b; induction a as [|c a IH]; intros [|d b]; simpl; try done.
  intros [= -> H]. f_equal. by apply IH.
Qed.

Lemma chars_lower (s : string) :
  PyStr.chars (PyStr.lower s) = map PyStr.lower_char (PyStr.chars s).
Proof. induction s as [|c s IH]; simpl; [done | by rewrite IH]. Qed.

Lemma chars_join_singletons (l : list ascii) :
  PyStr.chars (PyStr.join (map PyStr.char_str l)) = l.
Proof. induction l as [|c l IH]; simpl; [done | by f_equal]. Qed.

Lemma chars_length (s : string) : length (PyStr.chars s) = String.length s.
Proof. induction s as [|c s IH]; simpl; [done | by rewrite IH]. Qed.

Lemma chars_get (s : string) (i : nat) : PyStr.chars s !! i = String.get i s.
Proof.
  revert i; induction s as [|c s IH]; intros [|i]; simpl; auto.
Qed.

Lemma sanitize_column_unfold (c : ascii) (s : string) :
  sanitize_column (String c s) = String (column_rule c) (sanitize_column s).
Proof. unfold sanitize_column; simpl. f_equal. apply column_char. Qed.

Lemma chars_sanitize_column (s : string) :
  PyStr.chars (sanitize_column s) = map column_rule (PyStr.chars s).
Proof.
  induction s as [|c s IH]; [done |].
  rewrite sanitize_column_unfold; simpl. by rewrite IH.
Qed.

Lemma chars_sanitize_table (s : string) :
  PyStr.chars (sanitize_table s)
  = map PyStr.lower_char (filter (λ ch, retained ch = true) (PyStr.chars s)).
Proof. unfold sanitize_table. by rewrite chars_lower, chars_join_singletons. Qed.

(** The cleaned table name is in the lower-case form under which SQLite
    files a table. *)
Lemma sanitize_table_folded (sheet : string) :
  sql_fold (sanitize_table sheet) = sanitize_table sheet.
Proof.
  unfold sanitize_table.
  induction (PyStr.join _) as [| c r IH]; simpl; [done |].
  by rewrite sql_fold_lower_char, IH.
Qed.

(** ** C6: column clean-up *)

Lemma underscore_char (c : ascii) :
  (let u := if PyStr.eqc c " " then "_"%char else c in
   if PyStr.eqc u "-" then "_"%char else u) = underscore_rule c.
Proof. each_char c; reflexivity. Qed.

Lemma chars_replace_both (s : string) :
  PyStr.chars (PyStr.replace "-" "_" (PyStr.replace " " "_" s))
  = map underscore_rule (PyStr.chars s).
Proof.
  induction s as [|c s IH]; simpl; [done |].
  rewrite IH. f_equal. apply underscore_char.
Qed.

Lemma underscore_rule_underscored (c : ascii) : underscore_rule c = underscored c.
Proof. each_char c; reflexivity. Qed.

Lemma column_rule_ascii (c : ascii) :
  is_ascii c = true → column_rule c = ascii_column_rule c.
Proof. each_char c; (reflexivity || discriminate). Qed.

(** C6.  For every input string, column sanitization returns the input
    lower-cased with every space and every hyphen replaced by an underscore
    and no other character altered, added or removed: character for
    character the result is the lower-cased input with spaces and hyphens
    turned into underscores.  For an ASCII input, where lower-casing moves
    A-Z onto a-z, the result has the length of the input and its character
    at each position is the input's character there, lower-cased, or an
    underscore where the input has a space or a hyphen. *)
Theorem sanitize_column_correct (s : string) :
  PyStr.chars (sanitize_column s) = map underscored (PyStr.chars (PyStr.lower s))
  ∧ (Forall (λ c, is_ascii c = true) (PyStr.chars s) →
     PyStr.chars (sanitize_column s) = map ascii_column_rule (PyStr.chars s)
     ∧ String.length (sanitize_column s) = String.length s
     ∧ ∀ i : nat,
         String.get i (sanitize_column s) = ascii_column_rule <$> String.get i s).
Proof.
  split.
  - unfold sanitize_column. rewrite chars_replace_both.
    apply map_ext. intros c. apply underscore_rule_underscored.
  - intros Hascii.
    assert (PyStr.chars (sanitize_column s) = map ascii_column_rule (PyStr.chars s))
      as Hchars.
    { rewrite chars_sanitize_column. apply map_ext_Forall.
      eapply Forall_impl; [exact Hascii |]. intros c. apply column_rule_ascii. }
    split; [done |]. split.
    + rewrite <- !chars_length, Hchars. apply length_map.
    + intros i. rewrite <- !chars_get, Hchars. apply list_lookup_fmap.
Qed.

(** A header with capitals, a space and a hyphen. *)
Lemma sanitize_column_correct_witness :
  PyStr.chars (sanitize_column "Unit Price-A") = PyStr.chars "unit_price_a".
Proof.
  destruct (sanitize_column_correct "Unit Price-A") as [_ H].
  destruct H as (H & _); [repeat constructor |]. exact H.
Defined.

(** ** C7: table-name clean-up *)

Lemma retained_kept (c : ascii) : retained c = true ↔ kept c.
Proof.
  unfold retained, kept, PyStr.eqc. rewrite orb_true_iff.
  split; (intros [H | H]; [by left | right]).
  - by apply Ascii.eqb_eq.
  - by apply Ascii.eqb_eq.
Qed.

Lemma filter_retained_kept (l : list ascii) :
  filter (λ ch, retained ch = true) l = filter kept l.
Proof.
  induction l as [| c l IH]; [done |]. rewrite !filter_cons, IH.
  destruct (decide (retained c = true)) as [H | H], (decide (kept c)) as [K | K];
    try done.
  - by apply retained_kept in H.
  - by apply retained_kept in K.
Qed.

Lemma join_singletons (l : list ascii) :
  PyStr.join (map PyStr.char_str l) = string_of_list_ascii l.
Proof. induction l as [| c l IH]; simpl; [done | by rewrite IH]. Qed.

Lemma retained_ascii (c : ascii) : is_ascii c = true → retained c = ascii_word c.
Proof. each_char c; (reflexivity || discriminate). Qed.

Lemma lower_char_ascii (c : ascii) :
  is_ascii c = true → PyStr.lower_char c = ascii_lower c.
Proof. each_char c; (reflexivity || discriminate). Qed.

Lemma chars_sanitize_table_ascii (s : string) :
  Forall (λ c, is_ascii c = true) (PyStr.chars s) →
  PyStr.chars (sanitize_table s)
  = map ascii_lower (filter (λ c, ascii_word c = true) (PyStr.chars s)).
Proof.
  rewrite chars_sanitize_table.
  induction 1 as [| c l Hc _ IH]; [done |].
  rewrite !filter_cons, <- (retained_ascii c Hc).
  destruct (decide (retained c = true)); [| done].
  simpl. by rewrite IH, (lower_char_ascii c Hc).
Qed.

(** C7.  For every input string, table-name sanitization keeps exactly the
    characters that are alphanumeric or underscore, in order, drops every
    other character and lower-cases the result; it yields the empty string
    exactly when the input has no alphanumeric or underscore character.  For
    an ASCII input the result is, in order, the input's characters among
    0-9, A-Z, a-z and _, with A-Z moved onto a-z. *)
Theorem sanitize_table_correct (s : string) :
  sanitize_table s
  = PyStr.lower (string_of_list_ascii (filter kept (PyStr.chars s)))
  ∧ (sanitize_table s = "" ↔ Forall (λ c, ¬ kept c) (PyStr.chars s))
  ∧ (Forall (λ c, is_ascii c = true) (PyStr.chars s) →
     PyStr.chars (sanitize_table s)
     = map ascii_lower (filter (λ c, ascii_word c = true) (PyStr.chars s))).
Proof.
  split; [| split].
  - unfold sanitize_table. by rewrite join_singletons, filter_retained_kept.
  - rewrite Forall_forall. split.
    + intros H ch Hin Hk. apply retained_kept in Hk.
      apply (f_equal PyStr.chars) in H. rewrite chars_sanitize_table in H.
      simpl in H. apply fmap_nil_inv in H.
      by destruct (filter_nil_not_elem_of _ _ ch H Hk).
    + intros H. apply chars_inj. rewrite chars_sanitize_table. simpl.
      induction (PyStr.chars s) as [|c l IH]; [done |].
      rewrite filter_cons_False.
      * apply IH. intros ch Hch. apply H. by right.
      * rewrite retained_kept. apply H. by left.
  - apply chars_sanitize_table_ascii.
Qed.

(** A sheet name with capitals, a digit and a hyphen. *)
Lemma sanitize_table_correct_witness :
  PyStr.chars (sanitize_table "Q1-Report") = PyStr.chars "q1report".
Proof.
  destruct (sanitize_table_correct "Q1-Report") as (_ & _ & H).
  apply H. repeat constructor.
Defined.

(** ** One turn of the loop *)

Lemma to_sql_raises_alike (df : DataFrame string) (name : string) (conn conn' : Store) :
  (to_sql df name conn).2 = (to_sql df name conn').2.
Proof.
  unfold to_sql. destruct (check_identifiers _); [done |].
  destruct (create_table_error _ _); [done |].
  by destruct (storable_rows _).
Qed.

(** The outcome of a turn is fixed by the sheet. *)
Lemma convert_sheet_outcome (sheet : string) (df : DataFrame label) (conn : Store) :
  (convert_sheet sheet df conn).2 = (convert_sheet sheet df ∅).2.
Proof.
  unfold convert_sheet. destruct (clean_columns _) as [e | cols]; [done |].
  cbv zeta.
  pose proof (to_sql_raises_alike (mkFrame cols (data df)) (sanitize_table sheet) conn ∅) as H.
  destruct (to_sql _ _ conn) as [c1 [e1|]], (to_sql _ _ ∅) as [c2 [e2|]];
    simpl in H; try done. by injection H as ->.
Qed.

(** So is its effect on the file. *)
Lemma convert_sheet_store (sheet : string) (df : DataFrame label) (conn : Store) :
  (convert_sheet sheet df conn).1 = apply_write conn (sheet_write sheet df).
Proof.
  unfold convert_sheet, sheet_write, to_sql.
  destruct (clean_columns _) as [e | cols]; [done |]. cbv zeta. simpl columns.
  destruct (check_identifiers _); [done |].
  destruct (create_table_error _ _); [done |]. simpl data.
  by destruct (storable_rows _).
Qed.

Lemma convert_sheet_convertible (sheet : string) (df : DataFrame label) (conn : Store) :
  convertible sheet df = true →
  ∃ info, sheet_info sheet df = Some info
          ∧ convert_sheet sheet df conn
            = (apply_write conn (sheet_write sheet df), inr info).
Proof.
  unfold convertible, sheet_info. intros H.
  pose proof (convert_sheet_outcome sheet df conn) as Ho.
  pose proof (convert_sheet_store sheet df conn) as Hs.
  destruct (convert_sheet sheet df ∅).2 as [e | info] eqn:E; [done |].
  exists info. split; [done |].
  destruct (convert_sheet sheet df conn) as [c r]. simpl in *. by subst.
Qed.

Lemma convert_sheet_not_convertible (sheet : string) (df : DataFrame label) (conn : Store) :
  convertible sheet df = false →
  ∃ e, (convert_sheet sheet df ∅).2 = inl e
       ∧ convert_sheet sheet df conn
         = (apply_write conn (sheet_write sheet df), inl e).
Proof.
  unfold convertible. intros H.
  pose proof (convert_sheet_outcome sheet df conn) as Ho.
  pose proof (convert_sheet_store sheet df conn) as Hs.
  destruct (convert_sheet sheet df ∅).2 as [e | info] eqn:E; [| done].
  exists e. split; [done |].
  destruct (convert_sheet sheet df conn) as [c r]. simpl in *. by subst.
Qed.

(** A turn that passes every check writes the cleaned frame under the
    cleaned name. *)
Lemma convert_sheet_returns (sheet : string) (df : DataFrame label)
    (cols : list string) (conn : Store) :
  clean_columns (columns df) = inr cols →
  check_identifiers (cols ++ [sanitize_table sheet]) = None →
  create_table_error (sanitize_table sheet) cols = None →
  storable_rows (data df) = true →
  convert_sheet sheet df conn
  = (<[sanitize_table sheet := mkTable cols (stored_rows (data df))]> conn,
     inr (mkInfo sheet (sanitize_table sheet) (length (data df)) cols)).
Proof.
  intros Hc Hi Ht Hs. unfold convert_sheet, to_sql. rewrite Hc. cbv zeta.
  simpl columns. simpl data. rewrite Hi, Ht, Hs. done.
Qed.

(** ** The loop *)

(** What the loop hands back does not depend on the file it writes to. *)
Lemma convert_sheets_result_alike (excel_data : list (string * DataFrame label))
    (conn conn' : Store) (acc : list Info) :
  (convert_sheets excel_data conn acc).2 = (convert_sheets excel_data conn' acc).2.
Proof.
  revert conn conn' acc.
  induction excel_data as [| [sheet df] rest IH]; intros conn conn' acc; [done |].
  simpl. destruct (convertible sheet df) eqn:E.
  - destruct (convert_sheet_convertible sheet df conn E) as (i1 & H1 & ->).
    destruct (convert_sheet_convertible sheet df conn' E) as (i2 & H2 & ->).
    assert (i1 = i2) as -> by congruence. apply IH.
  - destruct (convert_sheet_not_convertible sheet df conn E) as (e1 & H1 & ->).
    destruct (convert_sheet_not_convertible sheet df conn' E) as (e2 & H2 & ->).
    simpl. congruence.
Qed.

Lemma convert_sheets_store (excel_data : list (string * DataFrame label))
    (conn : Store) (acc : list Info) :
  (convert_sheets excel_data conn acc).1
  = fold_left apply_write (loop_writes excel_data) conn.
Proof.
  revert conn acc.
  induction excel_data as [| [sheet df] rest IH]; intros conn acc; [done |].
  simpl. destruct (convertible sheet df) eqn:E.
  - destruct (convert_sheet_convertible sheet df conn E) as (i1 & H1 & ->).
    apply IH.
  - by destruct (convert_sheet_not_convertible sheet df conn E) as (e1 & H1 & ->).
Qed.

Lemma convert_sheets_closed_form (excel_data : list (string * DataFrame label))
    (conn : Store) (acc : list Info) :
  convert_sheets excel_data conn acc
  = (fold_left apply_write (loop_writes excel_data) conn,
     (convert_sheets excel_data ∅ acc).2).
Proof.
  rewrite <- (convert_sheets_store excel_data conn acc).
  rewrite <- (convert_sheets_result_alike excel_data conn ∅ acc).
  by destruct (convert_sheets excel_data conn acc).
Qed.

(** ** Sequences of writes *)

Lemma apply_write_lookup (conn : Store) (w : option (string * option Table)) (k : string) :
  apply_write conn w !! k = settle k (conn !! k) w.
Proof.
  destruct w as [[name content] |]; simpl; [| done].
  rewrite lookup_partial_alter. by destruct (decide (name = k)).
Qed.

Lemma apply_writes_lookup (ws : list (option (string * option Table)))
    (conn : Store) (k : string) :
  fold_left apply_write ws conn !! k = fold_left (settle k) ws (conn !! k).
Proof.
  revert conn. induction ws as [| w ws IH]; intros conn; simpl; [done |].
  by rewrite IH, apply_write_lookup.
Qed.

(** Under one name, a sequence of writes either leaves what was there or
    leaves contents of its own choosing. *)
Lemma settle_keeps_or_decides (k : string) (ws : list (option (string * option Table))) :
  (∀ was, fold_left (settle k) ws was = was)
  ∨ (∃ content, ∀ was, fold_left (settle k) ws was = content).
Proof.
  induction ws as [| w ws IH]; simpl; [by left |].
  destruct IH as [IH | [content IH]].
  - destruct w as [[name c] |]; simpl.
    + destruct (decide (name = k)).
      * right. exists c. intros was. apply IH.
      * left. intros was. apply IH.
    + left. intros was. apply IH.
  - right. exists content. intros was. apply IH.
Qed.

(** Writing the same sequence a second time changes nothing. *)
Lemma apply_writes_twice (ws : list (option (string * option Table))) (conn : Store) :
  fold_left apply_write ws (fold_left apply_write ws conn)
  = fold_left apply_write ws conn.
Proof.
  apply map_eq. intros k. rewrite !apply_writes_lookup.
  destruct (settle_keeps_or_decides k ws) as [H | [content H]].
  - by rewrite !H.
  - by rewrite !H.
Qed.

Lemma connect_insert (fs : Files) (database : string) (conn : Store) :
  connect (<[database := conn]> fs) database = conn.
Proof. unfold connect. by rewrite lookup_insert_eq. Qed.

Lemma excel_to_database_closed_form (excel_file : Workbook) (database : string)
    (sheet_names : option (list string)) (fs : Files) :
  excel_to_database excel_file database sheet_names fs
  = match load_sheets excel_file sheet_names with
    | inl e => (<[database := connect fs database]> fs, inl e)
    | inr excel_data =>
        (<[database := fold_left apply_write (loop_writes excel_data)
                         (connect fs database)]> fs,
         match (convert_sheets excel_data ∅ []).2 with
         | inl e => inl e
         | inr conversion_info => inr (database, conversion_info)
         end)
    end.
Proof.
  unfold excel_to_database. destruct (load_sheets _ _) as [e | excel_data]; [done |].
  rewrite convert_sheets_closed_form.
  by destruct (convert_sheets excel_data ∅ []).2.
Qed.

(** ** C5: running the conversion twice *)

(** C5.  Running excel_to_database a second time with the same source, the
    same sheet selection and the same store path, on the files the first run
    left, leaves every table of every file exactly as the first run left it
    and hands back the same result.  A materialization that succeeds leaves
    under its name the frame's columns and rows (a boolean as 1 or 0) and
    nothing of what the table held before: it replaces, it does not append.
    One that fails leaves the file as it was, or without a table of that
    name, or with the new table holding no row; it never adds rows to what
    the table held. *)
Theorem excel_to_database_idempotent (excel_file : Workbook) (database : string)
    (sheet_names : option (list string)) (fs : Files) :
  (let first := excel_to_database excel_file database sheet_names fs in
   excel_to_database excel_file database sheet_names first.1 = first)
  ∧ ∀ (df : DataFrame string) (name : string) (conn : Store),
      match to_sql df name conn with
      | (conn', None) =>
          conn' = <[name := mkTable (columns df) (stored_rows (data df))]> conn
      | (conn', Some _) =>
          conn' = conn ∨ conn' = delete name conn
          ∨ conn' = <[name := mkTable (columns df) []]> conn
      end.
Proof.
  split.
  - cbv zeta. rewrite !excel_to_database_closed_form.
    destruct (load_sheets excel_file sheet_names) as [e | excel_data]; simpl.
    + by rewrite connect_insert, insert_insert_eq.
    + by rewrite connect_insert, insert_insert_eq, apply_writes_twice.
  - intros df name conn. unfold to_sql.
    destruct (check_identifiers _); [by left |].
    destruct (create_table_error _ _); [right; by left |].
    destruct (storable_rows _); [done |]. right; by right.
Qed.

(** ** C3: the two-sheet example *)

(** C3, as the code has it.  For a spreadsheet with sheets "Sales Data" and
    "Q1-Report", each with columns "Item Name" and "Unit-Price" and rows
    whose integers fit 64 bits, excel_to_database produces the tables
    salesdata and q1report (the space of the sheet name is dropped, not
    turned into an underscore), each with the columns item_name and
    unit_price and the rows of its sheet as SQLite stores them, and reports
    them in that order. *)
Theorem sales_example_tables (rows1 rows2 : list (list cell)) (database : string)
    (fs : Files) :
  storable_rows rows1 = true →
  storable_rows rows2 = true →
  excel_to_database (Examples.sales_workbook rows1 rows2) database None fs
  = (<[database :=
         <["q1report" := mkTable ["item_name"; "unit_price"] (stored_rows rows2)]>
           (<["salesdata" := mkTable ["item_name"; "unit_price"] (stored_rows rows1)]>
              (connect fs database))]> fs,
     inr (database,
          [ mkInfo "Sales Data" "salesdata" (length rows1) ["item_name"; "unit_price"];
            mkInfo "Q1-Report" "q1report" (length rows2) ["item_name"; "unit_price"] ])).
Proof.
  intros Hs1 Hs2.
  unfold excel_to_database, Examples.sales_workbook.
  change (load_sheets _ None) with
    (@inr exn _ [ ("Sales Data", mkFrame Examples.sales_columns rows1);
                  ("Q1-Report", mkFrame Examples.sales_columns rows2) ]).
  cbv zeta. cbn [convert_sheets].
  rewrite (convert_sheet_returns "Sales Data" _ ["item_name"; "unit_price"])
    by (done || (vm_compute; reflexivity)).
  rewrite (convert_sheet_returns "Q1-Report" _ ["item_name"; "unit_price"])
    by (done || (vm_compute; reflexivity)).
  reflexivity.
Qed.

(** The example with two rows in each sheet, on a path that holds no file
    yet. *)
Lemma sales_example_tables_witness :
  excel_to_database
    (Examples.sales_workbook Examples.two_rows Examples.two_rows)
    Examples.database None ∅
  = (<[Examples.database :=
         <["q1report" := mkTable ["item_name"; "unit_price"] Examples.two_rows]>
           (<["salesdata" := mkTable ["item_name"; "unit_price"] Examples.two_rows]>
              (connect ∅ Examples.database))]> ∅,
     inr (Examples.database,
          [ mkInfo "Sales Data" "salesdata" 2 ["item_name"; "unit_price"];
            mkInfo "Q1-Report" "q1report" 2 ["item_name"; "unit_price"] ])).
Proof.
  apply (sales_example_tables Examples.two_rows Examples.two_rows
           Examples.database ∅); reflexivity.
Defined.

(** C3 as the specification words it fails: the table name sales_data of
    the example is not what the code produces; no run on the example reports the tables sales_data and q1report, and
    the file holds no table sales_data afterwards. *)
Lemma sales_example_not_sales_data :
  let run := excel_to_database
               (Examples.sales_workbook Examples.two_rows Examples.two_rows)
               Examples.database None ∅ in
  (¬ ∃ i1 i2, run.2 = inr (Examples.database, [i1; i2])
              ∧ table_name i1 = "sales_data" ∧ table_name i2 = "q1report")
  ∧ connect run.1 Examples.database !! "sales_data" = None.
Proof.
  cbv zeta. split.
  - intros (i1 & i2 & H & H1 & _). vm_compute in H.
    injection H as <- _. vm_compute in H1. discriminate.
  - vm_compute. reflexivity.
Qed.

(** ** C1: two headers that clean to the same column name *)

Lemma clean_columns_strings (names : list string) :
  clean_columns (map LStr names) = inr (map sanitize_column names).
Proof. induction names as [| n names IH]; simpl; [done | by rewrite IH]. Qed.

Lemma first_duplicate_seen (seen cols : list string) (j : nat) (y : string) :
  cols !! j = Some y → sql_fold y ∈ seen → is_Some (first_duplicate seen cols).
Proof.
  revert seen j. induction cols as [| c cols IH]; intros seen j Hj Hy; [done |].
  simpl. case_bool_decide as Hc; [by eexists |].
  destruct j as [| j]; simpl in Hj.
  - injection Hj as ->. done.
  - apply (IH _ j Hj). by right.
Qed.

Lemma first_duplicate_found (seen cols : list string) (i j : nat) (x y : string) :
  i < j → cols !! i = Some x → cols !! j = Some y → sql_fold x = sql_fold y →
  is_Some (first_duplicate seen cols).
Proof.
  revert seen i j. induction cols as [| c cols IH]; intros seen i j Hij Hi Hj Hxy; [done |].
  simpl. case_bool_decide as Hc; [by eexists |].
  destruct j as [| j]; [lia |]. simpl in Hj.
  destruct i as [| i]; simpl in Hi.
  - injection Hi as ->. apply (first_duplicate_seen _ _ j y Hj).
    rewrite <- Hxy. by left.
  - apply (IH _ i j); [lia | done | done | done].
Qed.

(** A frame in which a column name repeats is refused, and nothing of it is
    stored. *)
Lemma to_sql_duplicate (cols : list string) (rows : list (list cell))
    (name : string) (conn : Store) (i j : nat) (x : string) :
  i < j → cols !! i = Some x → cols !! j = Some x →
  ∃ conn' e, to_sql (mkFrame cols rows) name conn = (conn', Some e) ∧ conn' ⊆ conn.
Proof.
  intros Hij Hi Hj. unfold to_sql. simpl columns.
  destruct (check_identifiers _) as [e |]; [by exists conn, e |].
  unfold create_table_error.
  destruct (String.prefix _ _).
  { eexists _, _. split; [done | apply delete_subseteq]. }
  destruct (first_duplicate [] (take max_columns cols)) as [c |] eqn:Hdup.
  { eexists _, _. split; [done | apply delete_subseteq]. }
  destruct (Nat.ltb_spec max_columns (length cols)) as [Hmany | Hfew].
  { eexists _, _. split; [done | apply delete_subseteq]. }
  rewrite take_ge in Hdup by done.
  destruct (first_duplicate_found [] cols i j x x Hij Hi Hj eq_refl) as [c Hc].
  congruence.
Qed.

Lemma convert_sheets_raises (excel_data : list (string * DataFrame label))
    (sheet : string) (df : DataFrame label) (conn : Store) (acc : list Info) :
  (sheet, df) ∈ excel_data → convertible sheet df = false →
  ∃ conn' e, convert_sheets excel_data conn acc = (conn', inl e).
Proof.
  revert conn acc.
  induction excel_data as [| [s d] rest IH]; intros conn acc Hin Hbad.
  - by apply elem_of_nil in Hin.
  - simpl. destruct (convertible s d) eqn:E.
    + destruct (convert_sheet_convertible s d conn E) as (info & _ & ->).
      apply IH; [| done].
      apply elem_of_cons in Hin as [[= -> ->] | Hin]; [congruence | done].
    + destruct (convert_sheet_not_convertible s d conn E) as (e & _ & ->).
      by eexists _, _.
Qed.

(** C1, as the code has it.  When two distinct headers of a sheet clean to
    the same column name, the cleaned column list keeps both columns: it has
    the length of the original list and carries the shared name at both
    positions, and the rows are passed on untouched, so no column overwrites
    another.  Materializing that frame is refused (a column name may not
    repeat), nothing of the sheet is stored, and every conversion that
    reaches the sheet raises instead of succeeding. *)
Theorem column_collision_keeps_both (names : list string) (i j : nat)
    (a b : string) (rows : list (list cell)) (sheet : string) :
  i < j → names !! i = Some a → names !! j = Some b → a ≠ b →
  sanitize_column a = sanitize_column b →
  let df := mkFrame (map LStr names) rows in
  let cleaned := map sanitize_column names in
  clean_columns (columns df) = inr cleaned
  ∧ length cleaned = length names
  ∧ cleaned !! i = Some (sanitize_column b)
  ∧ cleaned !! j = Some (sanitize_column b)
  ∧ (∀ conn, ∃ conn' e,
       to_sql (mkFrame cleaned rows) (sanitize_table sheet) conn = (conn', Some e)
       ∧ convert_sheet sheet df conn = (conn', inl e)
       ∧ conn' ⊆ conn)
  ∧ (∀ excel_file database sheet_names fs excel_data,
       load_sheets excel_file sheet_names = inr excel_data →
       (sheet, df) ∈ excel_data →
       ∃ fs' e, excel_to_database excel_file database sheet_names fs = (fs', inl e)).
Proof.
  intros Hij Hi Hj Hab Hsame df cleaned.
  assert (cleaned !! i = Some (sanitize_column b)) as Hci.
  { unfold cleaned. rewrite list_lookup_fmap, Hi. simpl. by rewrite Hsame. }
  assert (cleaned !! j = Some (sanitize_column b)) as Hcj.
  { unfold cleaned. by rewrite list_lookup_fmap, Hj. }
  assert (∀ conn, ∃ conn' e,
       to_sql (mkFrame cleaned rows) (sanitize_table sheet) conn = (conn', Some e)
       ∧ convert_sheet sheet df conn = (conn', inl e)
       ∧ conn' ⊆ conn) as Hturn.
  { intros conn.
    destruct (to_sql_duplicate cleaned rows (sanitize_table sheet) conn i j _ Hij Hci Hcj)
      as (conn' & e & Hsql & Hsub).
    exists conn', e. split; [done |]. split; [| done].
    unfold convert_sheet, df. simpl columns. rewrite clean_columns_strings.
    cbv zeta. simpl data. fold cleaned. by rewrite Hsql. }
  split; [apply clean_columns_strings |].
  split; [apply length_map |].
  do 3 (split; [done |]).
  intros excel_file database sheet_names fs excel_data Hload Hin.
  assert (convertible sheet df = false) as Hbad.
  { unfold convertible. destruct (Hturn ∅) as (c & e & _ & -> & _). done. }
  unfold excel_to_database. rewrite Hload.
  destruct (convert_sheets_raises excel_data sheet df (connect fs database) [] Hin Hbad)
    as (conn' & e & ->).
  by eexists _, _.
Qed.

(** The headers "Unit Price" and "Unit-Price" of one sheet. *)
Lemma column_collision_keeps_both_witness :
  clean_columns (columns Examples.price_frame) = inr ["unit_price"; "unit_price"]
  ∧ ∃ fs' e, excel_to_database [("Prices", Examples.price_frame)]
               Examples.database None ∅ = (fs', inl e).
Proof.
  pose proof (column_collision_keeps_both ["Unit Price"; "Unit-Price"] 0 1
                "Unit Price" "Unit-Price" [ [CNumber 1; CNumber 2] ] "Prices") as H.
  destruct H as (Hc & _ & _ & _ & _ & Hrun);
    [lia | reflexivity | reflexivity | discriminate | reflexivity |].
  split; [exact Hc |].
  apply (Hrun _ _ None _ [("Prices", Examples.price_frame)]); [reflexivity | by left].
Defined.

(** C1 as the specification words it fails; last write wins does not
    occur: with the headers "Unit Price" and
    "Unit-Price", which both clean to unit_price, the conversion does not
    succeed with a table of one unit_price column holding the later column's
    values; it raises, and no table is written. *)
Lemma column_collision_not_last_write_wins :
  let run := excel_to_database [("Prices", Examples.price_frame)]
               Examples.database None ∅ in
  "Unit Price" ≠ "Unit-Price"
  ∧ sanitize_column "Unit Price" = sanitize_column "Unit-Price"
  ∧ (¬ ∃ report tbl, run.2 = inr report
         ∧ connect run.1 Examples.database !! "prices" = Some tbl
         ∧ t_columns tbl = ["unit_price"] ∧ t_rows tbl = [ [CNumber 2] ])
  ∧ run.2 = inl (SqliteError (DuplicateColumn "unit_price"))
  ∧ connect run.1 Examples.database !! "prices" = None.
Proof.
  cbv zeta. split; [discriminate |]. split; [reflexivity |]. split.
  - intros (report & tbl & H & _). vm_compute in H. discriminate.
  - split; vm_compute; reflexivity.
Qed.

(** The pair of headers the specification gives as an example does not
    collide: nothing is stripped, so the trailing space becomes an
    underscore. *)
Lemma cost_headers_differ :
  sanitize_column "Cost" = "cost" ∧ sanitize_column "cost " = "cost_".
Proof. split; reflexivity. Qed.

(** ** Loading a selection, and what the loop makes of it *)

Lemma dict_set_fresh {V} (k : string) (v : V) (d : list (string * V)) :
  k ∉ d.*1 → dict_set k v d = d ++ [(k, v)].
Proof.
  induction d as [| [k' v'] d IH]; intros Hk; simpl; [done |].
  destruct (String.eqb_spec k' k) as [-> | Hne].
  - exfalso. apply Hk. by left.
  - rewrite IH; [done |]. intros Hin. apply Hk. by right.
Qed.

Lemma selected_sheets_keys (excel_file : Workbook) (sheet_names : list string) (k : string) :
  k ∈ (selected_sheets excel_file sheet_names).*1 → k ∈ sheet_names.
Proof.
  unfold selected_sheets. induction sheet_names as [| s rest IH]; simpl; [done |].
  rewrite fmap_app, elem_of_app. intros [H | H].
  - destruct (dict_get s excel_file); simpl in H.
    + apply list_elem_of_singleton in H as ->. by left.
    + by apply elem_of_nil in H.
  - right. by apply IH.
Qed.

Lemma read_selected_nodup (excel_file : Workbook) (sheet_names : list string)
    (acc : list (string * DataFrame label)) :
  NoDup sheet_names →
  (∀ s, s ∈ sheet_names → s ∉ acc.*1) →
  (∀ s, s ∈ sheet_names → is_Some (dict_get s excel_file)) →
  read_selected excel_file sheet_names acc
  = inr (acc ++ selected_sheets excel_file sheet_names).
Proof.
  unfold selected_sheets.
  revert acc. induction sheet_names as [| s rest IH]; intros acc Hnd Hacc Hall.
  - simpl. by rewrite app_nil_r.
  - apply NoDup_cons in Hnd as [Hs Hnd].
    destruct (Hall s) as [df Hdf]; [by left |].
    simpl. unfold read_excel. rewrite Hdf.
    rewrite dict_set_fresh by (apply Hacc; by left).
    rewrite IH; [by rewrite <- app_assoc | done | |].
    + intros s' Hs'. rewrite fmap_app, elem_of_app. intros [H | H].
      * apply (Hacc s'); [by right | done].
      * simpl in H. apply list_elem_of_singleton in H as ->. done.
    + intros s' Hs'. apply Hall. by right.
Qed.

Lemma sheet_info_fields (sheet : string) (df : DataFrame label) (info : Info) :
  sheet_info sheet df = Some info →
  ∃ cols, clean_columns (columns df) = inr cols
          ∧ info = mkInfo sheet (sanitize_table sheet) (len df) cols.
Proof.
  unfold sheet_info, convert_sheet.
  destruct (clean_columns _) as [e | cols]; [done |]. cbv zeta.
  destruct (to_sql _ _ ∅) as [c [e |]]; [done |].
  intros [= <-]. by exists cols.
Qed.

Lemma convert_sheets_all (excel_data : list (string * DataFrame label))
    (conn : Store) (acc : list Info) :
  Forall (λ sd, convertible sd.1 sd.2 = true) excel_data →
  ∃ infos, convert_sheets excel_data conn acc
           = (fold_left apply_write (loop_writes excel_data) conn, inr (acc ++ infos))
           ∧ Forall2 (λ sd info, sheet_info sd.1 sd.2 = Some info) excel_data infos.
Proof.
  rewrite convert_sheets_closed_form.
  revert acc. induction excel_data as [| [s d] rest IH]; intros acc Hall.
  - exists []. simpl. by rewrite app_nil_r.
  - apply Forall_cons in Hall as [Hsd Hall]. simpl in Hsd.
    destruct (convert_sheet_convertible s d ∅ Hsd) as (info & Hinfo & Hturn).
    destruct (IH (acc ++ [info]) Hall) as (infos & Hrun & Hinfos).
    exists (info :: infos). split; [| by constructor].
    cbn [convert_sheets]. rewrite Hturn.
    rewrite (convert_sheets_result_alike rest _ ∅).
    injection Hrun as Hrun. rewrite Hrun. by rewrite <- app_assoc.
Qed.

Lemma loop_writes_names (excel_data : list (string * DataFrame label))
    (name : string) (content : option Table) :
  Some (name, content) ∈ loop_writes excel_data →
  name ∈ map sanitize_table excel_data.*1.
Proof.
  induction excel_data as [| [s d] rest IH]; simpl; [by intros ?%elem_of_nil |].
  intros [H | H]%elem_of_cons.
  - apply elem_of_cons. left. unfold sheet_write in H.
    destruct (clean_columns _); [done |].
    destruct (check_identifiers _); [done |].
    destruct (create_table_error _ _); [by injection H as -> |].
    by destruct (storable_rows _); injection H as ->.
  - apply elem_of_cons. right. destruct (convertible s d); [by apply IH | by apply elem_of_nil in H].
Qed.

Lemma settle_untouched (k : string) (ws : list (option (string * option Table)))
    (was : option Table) :
  (∀ name content, Some (name, content) ∈ ws → name ≠ k) →
  fold_left (settle k) ws was = was.
Proof.
  revert was. induction ws as [| w ws IH]; intros was H; simpl; [done |].
  rewrite IH by (intros n c Hin; apply (H n c); by right).
  destruct w as [[name c] |]; simpl; [| done].
  rewrite decide_False; [done |]. apply (H name c). by left.
Qed.

(** A table whose name is not the cleaned name of a loaded sheet is left as
    it was. *)
Lemma convert_sheets_elsewhere (excel_data : list (string * DataFrame label))
    (conn : Store) (acc : list Info) (k : string) :
  k ∉ map sanitize_table excel_data.*1 →
  (convert_sheets excel_data conn acc).1 !! k = conn !! k.
Proof.
  intros Hk. rewrite convert_sheets_store, apply_writes_lookup.
  apply settle_untouched. intros name content Hin ->.
  apply Hk. by apply (loop_writes_names _ _ content).
Qed.

Lemma Forall2_chain {A B C} (P : A → B → Prop) (Q : B → C → Prop)
    (l : list A) (k : list B) (m : list C) :
  Forall2 P l k → Forall2 Q k m → Forall2 (λ a c, ∃ b, P a b ∧ Q b c) l m.
Proof.
  intros H. revert m. induction H as [| a b l k Hab _ IH]; intros m Hm.
  - apply Forall2_nil_inv_l in Hm as ->. constructor.
  - apply Forall2_cons_inv_l in Hm as (c & m' & Hbc & Hm' & ->).
    constructor; [by exists b | by apply IH].
Qed.

Lemma selected_sheets_found (excel_file : Workbook) (sheet_names : list string) :
  (∀ s, s ∈ sheet_names → is_Some (dict_get s excel_file)) →
  Forall2 (λ s sd, sd.1 = s ∧ dict_get s excel_file = Some sd.2)
          sheet_names (selected_sheets excel_file sheet_names).
Proof.
  unfold selected_sheets. induction sheet_names as [| s rest IH]; intros Hall.
  - constructor.
  - destruct (Hall s) as [df Hdf]; [by left |].
    simpl. rewrite Hdf. simpl. constructor; [done |].
    apply IH. intros s' Hs'. apply Hall. by right.
Qed.

(** ** What one sheet writes *)

Lemma sheet_write_convertible (sheet : string) (df : DataFrame label) :
  convertible sheet df = true →
  ∃ cols, clean_columns (columns df) = inr cols
          ∧ sheet_write sheet df
            = Some (sanitize_table sheet, Some (mkTable cols (stored_rows (data df)))).
Proof.
  unfold convertible, convert_sheet, sheet_write, to_sql.
  destruct (clean_columns _) as [e | cols]; [done |]. cbv zeta. simpl columns.
  destruct (check_identifiers _); [done |].
  destruct (create_table_error _ _); [done |]. simpl data.
  destruct (storable_rows _); [| done]. intros _. by exists cols.
Qed.

(** A sheet that does not convert leaves the file alone, or drops the table
    of its name, or leaves that table new and without rows. *)
Lemma sheet_write_not_convertible (sheet : string) (df : DataFrame label) :
  convertible sheet df = false →
  sheet_write sheet df = None
  ∨ sheet_write sheet df = Some (sanitize_table sheet, None)
  ∨ ∃ cols, clean_columns (columns df) = inr cols
            ∧ sheet_write sheet df = Some (sanitize_table sheet, Some (mkTable cols [])).
Proof.
  unfold convertible, convert_sheet, sheet_write, to_sql.
  destruct (clean_columns _) as [e | cols]; [by left |]. cbv zeta. simpl columns.
  destruct (check_identifiers _); [by left |].
  destruct (create_table_error _ _); [right; by left |]. simpl data.
  destruct (storable_rows _); [done |]. intros _. right; right. by exists cols.
Qed.

Lemma loop_writes_all (excel_data : list (string * DataFrame label)) :
  Forall (λ sd, convertible sd.1 sd.2 = true) excel_data →
  loop_writes excel_data = map (λ sd, sheet_write sd.1 sd.2) excel_data.
Proof.
  induction 1 as [| [s d] rest Hsd _ IH]; simpl in *; [done |].
  by rewrite Hsd, IH.
Qed.

(** The loop stops at the first sheet that does not convert: the sheets
    before it have been written, the ones after it are not looked at, and
    the exception of that sheet is all that comes back. *)
Lemma convert_sheets_stops (done_ rest : list (string * DataFrame label))
    (sheet : string) (df : DataFrame label) (conn : Store) (acc : list Info) :
  Forall (λ sd, convertible sd.1 sd.2 = true) done_ →
  convertible sheet df = false →
  ∃ e, (convert_sheet sheet df ∅).2 = inl e
       ∧ convert_sheets (done_ ++ (sheet, df) :: rest) conn acc
         = (apply_write (fold_left apply_write (loop_writes done_) conn)
                        (sheet_write sheet df),
            inl e).
Proof.
  intros Hdone Hbad.
  destruct (convert_sheet_not_convertible sheet df ∅ Hbad) as (e & He & _).
  exists e. split; [done |].
  revert conn acc. induction Hdone as [| [s d] done_ Hsd _ IH]; intros conn acc.
  - simpl.
    destruct (convert_sheet_not_convertible sheet df conn Hbad) as (e' & He' & ->).
    congruence.
  - simpl in Hsd. cbn [app convert_sheets loop_writes]. rewrite Hsd.
    destruct (convert_sheet_convertible s d conn Hsd) as (info & _ & ->).
    cbn [fold_left]. apply IH.
Qed.

Lemma written_table_stays (done_ : list (string * DataFrame label)) (conn : Store)
    (i : nat) (s : string) (d : DataFrame label) :
  Forall (λ sd, convertible sd.1 sd.2 = true) done_ →
  done_ !! i = Some (s, d) →
  sanitize_table s ∉ map sanitize_table (drop (S i) done_).*1 →
  fold_left apply_write (loop_writes done_) conn !! sanitize_table s = sheet_table d
  ∧ is_Some (sheet_table d).
Proof.
  intros Hall Hi Hlater.
  assert (convertible s d = true) as Hsd.
  { rewrite Forall_forall in Hall. apply (Hall (s, d)).
    by eapply list_elem_of_lookup_2. }
  destruct (sheet_write_convertible s d Hsd) as (cols & Hcols & Hw).
  assert (sheet_table d = Some (mkTable cols (stored_rows (data d)))) as Ht
    by (unfold sheet_table; by rewrite Hcols).
  split; [| by rewrite Ht].
  rewrite <- (take_drop_middle done_ i (s, d) Hi) in Hall |- *.
  apply Forall_app in Hall as [Hpre Hpost].
  apply Forall_cons in Hpost as [_ Hpost].
  rewrite loop_writes_all by (apply Forall_app; split; [done | by constructor]).
  rewrite map_app, fold_left_app. cbn [map fold_left]. simpl fst. simpl snd.
  rewrite apply_writes_lookup, Hw.
  rewrite <- loop_writes_all by done.
  rewrite settle_untouched.
  - rewrite apply_write_lookup. simpl. by rewrite decide_True.
  - intros name content Hin ->. apply Hlater.
    by apply (loop_writes_names _ _ content).
Qed.

(** ** What it takes for a sheet to convert *)

Lemma mem_chars (x : ascii) (s : string) :
  PyStr.mem x s = true ↔ x ∈ PyStr.chars s.
Proof.
  induction s as [| c s IH]; simpl.
  - split; [done | by intros ?%elem_of_nil].
  - rewrite orb_true_iff, IH, elem_of_cons. unfold PyStr.eqc.
    split; (intros [H | H]; [left | by right]).
    + symmetry. by apply Ascii.eqb_eq.
    + subst. apply Ascii.eqb_refl.
Qed.

Lemma check_identifier_ok (name : string) :
  check_identifier name = None ↔ name ≠ "" ∧ "000"%char ∉ PyStr.chars name.
Proof.
  unfold check_identifier. destruct name as [| c r]; [by split; [| intros [? _]] |].
  rewrite <- mem_chars. destruct (PyStr.mem _ _); split; try done.
  by intros [_ H].
Qed.

Lemma check_identifiers_ok (names : list string) :
  check_identifiers names = None
  ↔ Forall (λ n, n ≠ "" ∧ "000"%char ∉ PyStr.chars n) names.
Proof.
  induction names as [| n names IH]; simpl; [by split; [constructor |] |].
  rewrite Forall_cons, <- IH, <- check_identifier_ok.
  destruct (check_identifier n); split; try done; by intros [? ?].
Qed.

Lemma column_rule_nul (c : ascii) : column_rule c = "000"%char ↔ c = "000"%char.
Proof. each_char c; split; (reflexivity || discriminate). Qed.

Lemma sanitize_column_identifier (h : string) :
  (sanitize_column h ≠ "" ∧ "000"%char ∉ PyStr.chars (sanitize_column h))
  ↔ (h ≠ "" ∧ "000"%char ∉ PyStr.chars h).
Proof.
  rewrite chars_sanitize_column.
  assert (sanitize_column h = "" ↔ h = "") as ->.
  { destruct h as [| c r]; [done |]. by rewrite sanitize_column_unfold. }
  assert ("000"%char ∈ map column_rule (PyStr.chars h) ↔ "000"%char ∈ PyStr.chars h)
    as ->; [| done].
  rewrite list_elem_of_fmap. split.
  - intros (c & Hc & Hin). symmetry in Hc. by apply column_rule_nul in Hc as ->.
  - intros Hin. by exists "000"%char.
Qed.

Lemma sanitize_table_no_nul (sheet : string) :
  "000"%char ∉ PyStr.chars (sanitize_table sheet).
Proof.
  rewrite chars_sanitize_table.
  intros (c & Hc & [Hr _]%list_elem_of_filter)%list_elem_of_fmap.
  revert Hc Hr. each_char c; (discriminate || reflexivity || done).
Qed.

Lemma clean_columns_inr (labels : list label) (cols : list string) :
  clean_columns labels = inr cols
  ↔ ∃ headers, labels = map LStr headers ∧ cols = map sanitize_column headers.
Proof.
  split.
  - revert cols. induction labels as [| [h | t] labels IH]; intros cols; simpl.
    + intros [= <-]. by exists [].
    + destruct (clean_columns labels) as [e | r]; [done |]. intros [= <-].
      destruct (IH r eq_refl) as (headers & -> & ->). by exists (h :: headers).
    + done.
  - intros (headers & -> & ->). apply clean_columns_strings.
Qed.

Lemma first_duplicate_none (seen cols : list string) :
  first_duplicate seen cols = None →
  NoDup (map sql_fold cols) ∧ ∀ c, c ∈ cols → sql_fold c ∉ seen.
Proof.
  revert seen. induction cols as [| c cols IH]; intros seen; simpl.
  - intros _. split; [constructor |]. by intros c ?%elem_of_nil.
  - case_bool_decide as Hc; [done |]. intros H.
    destruct (IH _ H) as [Hnd Hseen]. split.
    + constructor; [| done]. intros (c' & Heq & Hin)%list_elem_of_fmap.
      apply (Hseen c' Hin). rewrite <- Heq. by left.
    + intros c' [-> | Hin]%elem_of_cons; [done |].
      intros Hs. apply (Hseen c' Hin). by right.
Qed.

Lemma first_duplicate_nodup (seen cols : list string) :
  NoDup (map sql_fold cols) → (∀ c, c ∈ cols → sql_fold c ∉ seen) →
  first_duplicate seen cols = None.
Proof.
  revert seen. induction cols as [| c cols IH]; intros seen Hnd Hseen; [done |].
  simpl in *. apply NoDup_cons in Hnd as [Hc Hnd].
  rewrite bool_decide_eq_false_2 by (apply Hseen; by left).
  apply IH; [done |]. intros c' Hin [Heq | Hs]%elem_of_cons.
  - apply Hc. rewrite <- Heq. apply list_elem_of_fmap. by exists c'.
  - apply (Hseen c'); [by right | done].
Qed.

Lemma storable_rows_spec (rows : list (list cell)) :
  storable_rows rows = true
  ↔ Forall (Forall (λ c, ∀ z, c = CNumber z → (- 2 ^ 63 ≤ z < 2 ^ 63)%Z)) rows.
Proof.
  unfold storable_rows. rewrite forallb_forall, Forall_forall.
  setoid_rewrite <- list_elem_of_In.
  split; intros H row Hrow; specialize (H row Hrow).
  - rewrite forallb_forall in H. setoid_rewrite <- list_elem_of_In in H.
    apply Forall_forall. intros c Hc z ->. specialize (H _ Hc).
    simpl in H. apply andb_prop in H as [H1 H2]. lia.
  - rewrite Forall_forall in H. apply forallb_forall. intros c Hc%list_elem_of_In.
    specialize (H c Hc). destruct c as [t | z | b |]; try done.
    simpl. apply andb_true_intro. specialize (H z eq_refl). split; lia.
Qed.

(** [convertible], computed by running the sheet's turn of the loop, holds
    exactly of the sheets described by [sheet_converts]. *)
Lemma convertible_iff (sheet : string) (df : DataFrame label) :
  convertible sheet df = true ↔ sheet_converts sheet df.
Proof.
  unfold convertible, convert_sheet, to_sql, sheet_converts.
  split.
  - destruct (clean_columns _) as [e | cols] eqn:Hclean; [done |].
    cbv zeta. simpl columns. simpl data.
    apply clean_columns_inr in Hclean as (headers & Hheaders & ->).
    destruct (check_identifiers _) eqn:Hids; [done |].
    destruct (create_table_error _ _) eqn:Hcreate; [done |].
    destruct (storable_rows _) eqn:Hrows; [| done]. intros _.
    apply check_identifiers_ok, Forall_app in Hids as [Hcols Hname].
    apply Forall_singleton in Hname as [Hname _].
    unfold create_table_error in Hcreate. rewrite sanitize_table_folded in Hcreate.
    destruct (String.prefix _ _) eqn:Hprefix; [done |].
    destruct (first_duplicate [] _) eqn:Hdup; [done |].
    destruct (Nat.ltb_spec max_columns (length (map sanitize_column headers)))
      as [Hmany | Hfew]; [done |].
    rewrite take_ge in Hdup by done. rewrite length_map in Hfew.
    exists headers. split; [done |]. split; [by destruct headers |].
    split; [done |]. split.
    { apply Forall_fmap in Hcols. eapply Forall_impl; [exact Hcols |].
      intros h. apply sanitize_column_identifier. }
    split.
    { apply first_duplicate_none in Hdup as [Hnd _]. by rewrite map_map in Hnd. }
    split; [done |]. split; [done |]. by apply storable_rows_spec.
  - intros (headers & Hheaders & Hsome & Hfew & Hcols & Hnd & Hname & Hprefix & Hrows).
    rewrite Hheaders, clean_columns_strings. cbv zeta. simpl columns. simpl data.
    assert (check_identifiers (map sanitize_column headers ++ [sanitize_table sheet])
            = None) as ->.
    { apply check_identifiers_ok, Forall_app. split.
      - apply Forall_fmap. eapply Forall_impl; [exact Hcols |].
        intros h. apply sanitize_column_identifier.
      - apply Forall_singleton. split; [done | apply sanitize_table_no_nul]. }
    assert (create_table_error (sanitize_table sheet) (map sanitize_column headers)
            = None) as ->.
    { unfold create_table_error. rewrite sanitize_table_folded, Hprefix.
      rewrite take_ge by (by rewrite length_map).
      rewrite first_duplicate_nodup;
        [| by rewrite map_map | intros c _; apply not_elem_of_nil].
      destruct (Nat.ltb_spec max_columns (length (map sanitize_column headers)))
        as [Hmany | _]; [rewrite length_map in Hmany; lia |].
      by destruct headers. }
    apply storable_rows_spec in Hrows. by rewrite Hrows.
Qed.

Lemma selected_sheets_names (excel_file : Workbook) (sheet_names : list string) :
  (∀ s, s ∈ sheet_names → is_Some (dict_get s excel_file)) →
  (selected_sheets excel_file sheet_names).*1 = sheet_names.
Proof.
  intros Hfound.
  pose proof (selected_sheets_found excel_file sheet_names Hfound) as Hsel.
  clear Hfound. revert Hsel.
  generalize (selected_sheets excel_file sheet_names). intros sel Hsel.
  induction Hsel as [| s sd names sel' [Hs _] _ IH]; [done |].
  rewrite fmap_cons, IH. by f_equal.
Qed.

(** ** C2: an explicit selection of sheets *)

(** C2, as the code has it.  For every spreadsheet source and every explicit
    selection, without repetition, of sheet names of the source whose sheets
    each convert on their own (text headers, non-empty and free of NUL,
    between 1 and 2000 of them, no two cleaning to the same column name up
    to the case of A-Z; a cleaned table name that is non-empty and does not
    start with sqlite_; integer cells within 64 bits), excel_to_database
    converts only the selected sheets and returns exactly one entry per
    selected sheet, len(S) in all, in the order of the selection (whatever
    the order of the sheets in the source): each entry carries its sheet's
    name, cleaned table name, row count and cleaned columns; every selected
    sheet whose cleaned table name no later selected sheet shares has its
    table in the file; tables under other names, and other files, are left
    as they were. *)
Theorem selection_converted_in_selection_order (excel_file : Workbook)
    (sheet_names : list string) (database : string) (fs : Files) :
  NoDup sheet_names →
  (∀ s, s ∈ sheet_names →
        ∃ df, dict_get s excel_file = Some df ∧ sheet_converts s df) →
  ∃ fs' infos,
    excel_to_database excel_file database (Some sheet_names) fs
    = (fs', inr (database, infos))
    ∧ length infos = length sheet_names
    ∧ map sheet_name infos = sheet_names
    ∧ Forall2 (λ s info, ∃ df cols,
                 dict_get s excel_file = Some df
                 ∧ clean_columns (columns df) = inr cols
                 ∧ info = mkInfo s (sanitize_table s) (len df) cols)
              sheet_names infos
    ∧ (∀ i s df,
         sheet_names !! i = Some s → dict_get s excel_file = Some df →
         sanitize_table s ∉ map sanitize_table (drop (S i) sheet_names) →
         ∃ cols, clean_columns (columns df) = inr cols
                 ∧ connect fs' database !! sanitize_table s
                   = Some (mkTable cols (stored_rows (data df))))
    ∧ (∀ k, k ∉ map sanitize_table sheet_names →
            connect fs' database !! k = connect fs database !! k)
    ∧ (∀ path, path ≠ database → fs' !! path = fs !! path).
Proof.
  intros Hnd Hall.
  assert (∀ s, s ∈ sheet_names → is_Some (dict_get s excel_file)) as Hfound.
  { intros s Hs. destruct (Hall s Hs) as (df & -> & _). by eexists. }
  pose proof (selected_sheets_found excel_file sheet_names Hfound) as Hsel.
  pose proof (selected_sheets_names excel_file sheet_names Hfound) as Hnames.
  assert (Forall (λ sd, convertible sd.1 sd.2 = true)
                 (selected_sheets excel_file sheet_names)) as Hconv.
  { apply Forall_forall. intros [s d] Hin.
    apply list_elem_of_lookup in Hin as [i Hi].
    destruct (Forall2_lookup_r _ _ _ _ _ Hsel Hi) as (s' & Hs' & Hname & Hget).
    simpl in *. subst s'.
    destruct (Hall s) as (df & Hdf & Hok); [by eapply list_elem_of_lookup_2 |].
    apply convertible_iff. congruence. }
  destruct (convert_sheets_all _ (connect fs database) [] Hconv)
    as (infos & Hrun & Hinfos).
  pose proof (Forall2_chain _ _ _ _ _ Hsel Hinfos) as Hchain.
  assert (Forall2 (λ s info, ∃ df cols,
                 dict_get s excel_file = Some df
                 ∧ clean_columns (columns df) = inr cols
                 ∧ info = mkInfo s (sanitize_table s) (len df) cols)
              sheet_names infos) as Hentries.
  { eapply Forall2_impl; [exact Hchain |].
    intros s info ([s' d] & [Hs Hd] & Hi). simpl in *. subst s'.
    destruct (sheet_info_fields s d info Hi) as (cols & Hc & ->).
    by exists d, cols. }
  eexists _, infos. split.
  { unfold excel_to_database, load_sheets.
    rewrite (read_selected_nodup excel_file sheet_names []); [| done | | done].
    - simpl app. rewrite Hrun. reflexivity.
    - intros s _ H. simpl in H. by apply elem_of_nil in H. }
  split; [symmetry; eapply Forall2_length; exact Hentries |].
  split.
  { clear -Hentries. induction Hentries as [| s info l k (df & cols & _ & _ & ->) _ IH];
      simpl; [done | by rewrite IH]. }
  split; [done |]. split; [| split].
  - intros i s df Hi Hdf Hlater. rewrite connect_insert.
    destruct (Forall2_lookup_l _ _ _ _ _ Hsel Hi) as ([s' d] & Hsd & Hs' & Hd).
    simpl in Hs', Hd. subst s'. assert (d = df) as -> by congruence.
    destruct (written_table_stays _ (connect fs database) i s df Hconv Hsd)
      as [Hstored [tbl Htbl]].
    { by rewrite fmap_drop, Hnames. }
    unfold sheet_table in Hstored, Htbl.
    destruct (clean_columns (columns df)) as [e | cols]; [done |].
    by exists cols.
  - intros k Hk. rewrite connect_insert, apply_writes_lookup.
    apply settle_untouched. intros name content Hin ->.
    apply Hk. apply loop_writes_names in Hin.
    apply list_elem_of_fmap in Hin as (s & -> & Hs).
    apply list_elem_of_fmap. exists s. split; [done |].
    by apply (selected_sheets_keys excel_file).
  - intros path Hp. by rewrite lookup_insert_ne.
Qed.

(** The two example sheets, selected in the reverse of their order in the
    workbook. *)
Lemma selection_converted_in_selection_order_witness :
  ∃ fs' infos,
    excel_to_database (Examples.sales_workbook Examples.two_rows Examples.two_rows)
      Examples.database (Some ["Q1-Report"; "Sales Data"]) ∅
    = (fs', inr (Examples.database, infos))
    ∧ map sheet_name infos = ["Q1-Report"; "Sales Data"]
    ∧ connect fs' Examples.database !! "q1report"
      = Some (mkTable ["item_name"; "unit_price"] Examples.two_rows).
Proof.
  destruct (selection_converted_in_selection_order
              (Examples.sales_workbook Examples.two_rows Examples.two_rows)
              ["Q1-Report"; "Sales Data"] Examples.database ∅)
    as (fs' & infos & Hrun & _ & Hnames & _ & Hstored & _).
  - apply (bool_decide_unpack _). vm_compute. reflexivity.
  - intros s Hs.
    apply elem_of_cons in Hs as [-> | Hs];
      [eexists; split; [reflexivity | apply convertible_iff; vm_compute; reflexivity] |].
    apply elem_of_cons in Hs as [-> | Hs];
      [eexists; split; [reflexivity | apply convertible_iff; vm_compute; reflexivity] |].
    by apply elem_of_nil in Hs.
  - exists fs', infos. split; [exact Hrun |]. split; [exact Hnames |].
    destruct (Hstored 0%nat "Q1-Report"
                (mkFrame Examples.sales_columns Examples.two_rows))
      as (cols & Hcols & Hq); [reflexivity | reflexivity | |].
    + vm_compute. intros H.
      repeat (apply elem_of_cons in H as [H | H]; [discriminate |]).
      by apply elem_of_nil in H.
    + vm_compute in Hcols. injection Hcols as <-. exact Hq.
Defined.

(** C2 as the specification words it fails.  The entries do not follow the
    source's sheet order: selecting
    ["Q1-Report"; "Sales Data"] from a workbook whose sheets are
    ["Sales Data"; "Q1-Report"] reports Q1-Report first.  Nor does every
    well-formed source yield an entry per selected sheet: a sheet whose header
    row holds a number makes the conversion raise. *)
Lemma selection_not_in_source_order :
  let excel_file := Examples.sales_workbook Examples.two_rows Examples.two_rows in
  let run := excel_to_database excel_file Examples.database
               (Some ["Q1-Report"; "Sales Data"]) ∅ in
  let run' := excel_to_database [("Stock", Examples.year_frame)] Examples.database
                (Some ["Stock"]) ∅ in
  excel_file.*1 = ["Sales Data"; "Q1-Report"]
  ∧ (¬ ∃ infos, run.2 = inr (Examples.database, infos)
                ∧ map sheet_name infos = ["Sales Data"; "Q1-Report"])
  ∧ (∃ infos, run.2 = inr (Examples.database, infos)
              ∧ map sheet_name infos = ["Q1-Report"; "Sales Data"])
  ∧ (¬ ∃ infos, run'.2 = inr (Examples.database, infos)).
Proof.
  cbv zeta. split; [reflexivity |]. split; [| split].
  - intros (infos & H & Hn). vm_compute in H. injection H as <-.
    vm_compute in Hn. discriminate.
  - eexists. split; vm_compute; reflexivity.
  - intros (infos & H). vm_compute in H. discriminate.
Qed.

(** ** C4: a sheet that fails part-way *)

(** C4, as the code has it.  If the Nth sheet of a conversion fails after
    sheets 1..N-1 were written, the call raises the exception of the Nth
    sheet alone, the same whatever was written before it, and hands back no
    conversion_info.  The file is not rolled back: under every name but the
    Nth sheet's cleaned name it is what the first N-1 sheets made of it, and
    every earlier sheet whose table name no later sheet reused still has its
    table.  Under the Nth sheet's cleaned name the file has what the first
    N-1 sheets left there, or no table (it was dropped), or a new table with
    the Nth sheet's cleaned columns and no row: no row of the Nth sheet is
    stored. *)
Theorem failure_midway_keeps_earlier_tables (excel_file : Workbook)
    (sheet_names : option (list string)) (database : string) (fs : Files)
    (done_ rest : list (string * DataFrame label))
    (sheet : string) (df : DataFrame label) :
  load_sheets excel_file sheet_names = inr (done_ ++ (sheet, df) :: rest) →
  Forall (λ sd, convertible sd.1 sd.2 = true) done_ →
  convertible sheet df = false →
  let before := fold_left apply_write (loop_writes done_) (connect fs database) in
  ∃ fs' e,
    excel_to_database excel_file database sheet_names fs = (fs', inl e)
    ∧ (convert_sheet sheet df ∅).2 = inl e
    ∧ (∀ k, k ≠ sanitize_table sheet → connect fs' database !! k = before !! k)
    ∧ (connect fs' database !! sanitize_table sheet = before !! sanitize_table sheet
       ∨ connect fs' database !! sanitize_table sheet = None
       ∨ ∃ cols, clean_columns (columns df) = inr cols
                 ∧ connect fs' database !! sanitize_table sheet
                   = Some (mkTable cols []))
    ∧ (∀ i s d, done_ !! i = Some (s, d) →
         sanitize_table s ∉ map sanitize_table (drop (S i) done_).*1 →
         before !! sanitize_table s = sheet_table d ∧ is_Some (sheet_table d)).
Proof.
  intros Hload Hdone Hbad before.
  destruct (convert_sheets_stops done_ rest sheet df (connect fs database) [] Hdone Hbad)
    as (e & He & Hrun).
  eexists _, e. split.
  { unfold excel_to_database. rewrite Hload, Hrun. reflexivity. }
  split; [done |]. rewrite connect_insert. fold before.
  split; [| split].
  - intros k Hk. rewrite apply_write_lookup.
    destruct (sheet_write_not_convertible sheet df Hbad)
      as [-> | [-> | (cols & _ & ->)]]; simpl; [done | |]; by rewrite decide_False.
  - rewrite apply_write_lookup.
    destruct (sheet_write_not_convertible sheet df Hbad)
      as [-> | [-> | (cols & Hcols & ->)]]; simpl.
    + by left.
    + right; left. by rewrite decide_True.
    + right; right. exists cols. by rewrite decide_True.
  - intros i s d Hi Hlater. by apply (written_table_stays done_ _ i).
Qed.

(** A good sheet followed by one whose headers collide. *)
Lemma failure_midway_keeps_earlier_tables_witness :
  ∃ fs' e,
    excel_to_database
      [("Items", Examples.item_frame); ("Prices", Examples.price_frame)]
      Examples.database None ∅ = (fs', inl e)
    ∧ connect fs' Examples.database !! "items" = sheet_table Examples.item_frame.
Proof.
  destruct (failure_midway_keeps_earlier_tables
              [("Items", Examples.item_frame); ("Prices", Examples.price_frame)]
              None Examples.database ∅
              [("Items", Examples.item_frame)] [] "Prices" Examples.price_frame)
    as (fs' & e & Hrun & _ & Hother & _ & Hkept).
  - reflexivity.
  - repeat constructor.
  - reflexivity.
  - exists fs', e. split; [exact Hrun |].
    rewrite Hother by discriminate.
    apply (Hkept 0 "Items" Examples.item_frame); [reflexivity |].
    simpl. apply not_elem_of_nil.
Defined.

(** A good sheet followed by one that holds an integer beyond 64 bits: the
    second sheet's table is there afterwards, with its column and no row. *)
Lemma failure_at_insert_leaves_empty_table :
  let run := excel_to_database
               [("Items", Examples.item_frame); ("Stock", Examples.big_frame)]
               Examples.database None ∅ in
  run.2 = inl (OverflowError "Python int too large to convert to SQLite INTEGER")
  ∧ connect run.1 Examples.database !! "items" = sheet_table Examples.item_frame
  ∧ connect run.1 Examples.database !! "stock" = Some (mkTable ["count"] []).
Proof. cbv zeta. repeat split; vm_compute; reflexivity. Qed.

(** C4 as the specification words it fails.  What reaches the caller does
    not tell which sheets were written: a run
    that wrote the table items before failing and a run that wrote nothing
    raise the very same exception, and neither returns conversion_info. *)
Lemma failure_midway_not_reported :
  let r1 := excel_to_database
              [("Items", Examples.item_frame); ("Prices", Examples.price_frame)]
              Examples.database None ∅ in
  let r2 := excel_to_database [("Prices", Examples.price_frame)]
              Examples.database None ∅ in
  r1.2 = inl (SqliteError (DuplicateColumn "unit_price"))
  ∧ r2.2 = r1.2
  ∧ is_Some (connect r1.1 Examples.database !! "items")
  ∧ connect r2.1 Examples.database !! "items" = None
  ∧ ¬ ∃ succeeded : exn + string * list Info → list string,
        succeeded r1.2 = ["Items"] ∧ succeeded r2.2 = [].
Proof.
  cbv zeta.
  assert ((excel_to_database [("Prices", Examples.price_frame)]
             Examples.database None ∅).2
          = (excel_to_database
               [("Items", Examples.item_frame); ("Prices", Examples.price_frame)]
               Examples.database None ∅).2) as Hsame
    by (vm_compute; reflexivity).
  split; [vm_compute; reflexivity |]. split; [exact Hsame |].
  split; [vm_compute; by eexists |]. split; [vm_compute; reflexivity |].
  intros (succeeded & H1 & H2). rewrite Hsame, H1 in H2. discriminate.
Qed.

(** ** Cutting strings *)

Lemma split_where_nonempty (p : ascii → bool) (s : string) :
  PyStr.split_where p s ≠ [].
Proof.
  destruct s as [| c s]; simpl; [done |].
  destruct (p c); [done |]. by destruct (PyStr.split_where p s).
Qed.

Lemma split_where_app (p : ascii → bool) (a b : string) (c : ascii) :
  p c = true →
  PyStr.split_where p (a +:+ String c b)
  = PyStr.split_where p a ++ PyStr.split_where p b.
Proof.
  intros Hc. induction a as [| x a IH]; simpl.
  - by rewrite Hc.
  - rewrite IH. destruct (p x); [done |].
    pose proof (split_where_nonempty p a) as Hne.
    by destruct (PyStr.split_where p a).
Qed.

Lemma split_where_whole (p : ascii → bool) (s : string) :
  forallb (λ c, negb (p c)) (PyStr.chars s) = true →
  PyStr.split_where p s = [s].
Proof.
  induction s as [| c s IH]; simpl; [done |].
  intros [Hc Hs]%andb_prop. rewrite IH by done.
  by destruct (p c).
Qed.

(** ** C8: the text fallback of [pdf_to_excel] *)

Lemma extend_all {A B} (f : A → list B) (l : list A) (acc : list B) :
  fold_left (λ acc x, acc ++ f x) l acc = acc ++ (x ← l; f x).
Proof.
  revert acc. induction l as [| x l IH]; intros acc; simpl.
  - by rewrite app_nil_r.
  - by rewrite IH, <- app_assoc.
Qed.

Lemma filter_strip (lines : list string) :
  map PyStr.strip (filter (λ line, PyStr.truthy (PyStr.strip line) = true) lines)
  = filter (λ line, PyStr.truthy line = true) (map PyStr.strip lines).
Proof.
  induction lines as [| l lines IH]; simpl; [done |].
  rewrite !filter_cons. destruct (decide _); simpl; by rewrite IH.
Qed.

Lemma page_lines_spec (text : string) :
  page_lines text
  = filter (λ line, PyStr.truthy line = true) (map PyStr.strip (PyStr.split "010" text)).
Proof.
  unfold page_lines. destruct text as [| c r]; [done |].
  cbn [PyStr.truthy]. apply filter_strip.
Qed.

Lemma collect_text_spec (pages : list string) :
  collect_text pages = text_lines pages.
Proof.
  unfold collect_text, text_lines. rewrite extend_all. cbn [app].
  induction pages as [| text pages IH]; [done |].
  by rewrite !bind_cons, page_lines_spec, IH.
Qed.

(** *** Writing the Content sheet *)








(** A PDF without tables and without text: no sheet is written, and closing
    the writer raises. *)
Lemma blank_pdf_raises :
  staged_sheets Examples.blank_pdf = []
  ∧ pdf_to_excel Examples.blank_pdf
    = inl (Exception "Error converting PDF to Excel: At least one sheet must be visible").
Proof. split; vm_compute; reflexivity. Qed.

(** ** The text of the preview statement *)

Lemma digit_not_blank (c : ascii) : Sql.ascii_digit c = true → Sql.blank c = false.
Proof. each_char c; (reflexivity || discriminate). Qed.

Lemma ident_char_not_blank (c : ascii) : Sql.ident_char c = true → Sql.blank c = false.
Proof. each_char c; (reflexivity || discriminate). Qed.

Lemma ident_start_char (c : ascii) : Sql.ident_start c = true → Sql.ident_char c = true.
Proof. each_char c; (reflexivity || discriminate). Qed.

Lemma ident_start_not_digit (c : ascii) :
  Sql.ident_start c = true → Sql.ascii_digit c = false.
Proof. each_char c; (reflexivity || discriminate). Qed.

Lemma digit_retained (c : ascii) :
  Sql.ascii_digit c = true → retained c = true ∧ PyStr.lower_char c = c.
Proof. each_char c; (by split || discriminate). Qed.

Lemma no_blank_of (q : ascii → bool) (l : list ascii) :
  (∀ c, q c = true → Sql.blank c = false) →
  forallb q l = true → forallb (λ c, negb (Sql.blank c)) l = true.
Proof.
  intros Hq. induction l as [| c l IH]; simpl; [done |].
  intros [Hc Hl]%andb_prop. by rewrite (Hq c Hc), IH.
Qed.

(** A non-empty string without blanks is its own single lexeme. *)
Lemma lexemes_whole (w : string) :
  PyStr.truthy w = true →
  forallb (λ c, negb (Sql.blank c)) (PyStr.chars w) = true →
  Sql.lexemes w = [w].
Proof.
  intros Hw Hb. unfold Sql.lexemes. rewrite split_where_whole by done.
  by rewrite filter_cons, decide_True.
Qed.

Lemma lexemes_app (a b : string) :
  Sql.lexemes (a +:+ String " " b) = Sql.lexemes a ++ Sql.lexemes b.
Proof.
  unfold Sql.lexemes. rewrite split_where_app by reflexivity. apply filter_app.
Qed.

Lemma digits_of_uint (d : Decimal.uint) :
  forallb Sql.ascii_digit (PyStr.chars (NilEmpty.string_of_uint d)) = true.
Proof. induction d; simpl; auto. Qed.

Lemma all_digits_of_uint (d : Decimal.uint) :
  Sql.all_digits (NilZero.string_of_uint d) = true.
Proof.
  unfold Sql.all_digits. destruct d; try reflexivity;
    (apply andb_true_intro; split; [reflexivity | apply digits_of_uint]).
Qed.

Lemma all_digits_plain (w : string) :
  Sql.all_digits w = true →
  PyStr.truthy w = true
  ∧ forallb (λ c, negb (Sql.blank c)) (PyStr.chars w) = true.
Proof.
  unfold Sql.all_digits. intros [Hw Hd]%andb_prop. split; [done |].
  by apply (no_blank_of Sql.ascii_digit), Hd; apply digit_not_blank.
Qed.

(** The decimal text of an integer is a single lexeme. *)
Lemma lexemes_of_int (n : Z) : Sql.lexemes (PyStr.of_int n) = [PyStr.of_int n].
Proof.
  unfold PyStr.of_int. destruct n as [| p | p]; [reflexivity | |]; simpl.
  - destruct (all_digits_plain _ (all_digits_of_uint (Pos.to_uint p))) as [H1 H2].
    by apply lexemes_whole.
  - destruct (all_digits_plain _ (all_digits_of_uint (Pos.to_uint p))) as [H1 H2].
    apply lexemes_whole; [done |]. simpl. done.
Qed.

(** The table name is spliced into the statement as it stands: whatever
    lexemes it is made of become lexemes of the statement. *)
Lemma lexemes_preview_sql (table_name : string) (rows : Z) :
  Sql.lexemes (preview_sql table_name rows)
  = ["SELECT"; "*"; "FROM"] ++ Sql.lexemes table_name ++ ["LIMIT"; PyStr.of_int rows].
Proof.
  unfold preview_sql.
  change ("SELECT * FROM " +:+ table_name +:+ " LIMIT " +:+ PyStr.of_int rows)
    with ("SELECT" +:+ String " " ("*" +:+ String " " ("FROM" +:+ String " "
            (table_name +:+ String " " ("LIMIT" +:+ String " " (PyStr.of_int rows)))))).
  rewrite !lexemes_app, lexemes_of_int. reflexivity.
Qed.

Lemma limit_value_digits (w : string) :
  Sql.all_digits w = true →
  Sql.limit_value w = (d ← NilZero.uint_of_string w; Sql.in_range (Z.of_uint d)).
Proof.
  intros H. destruct w as [| c r]; [discriminate |].
  unfold Sql.limit_value.
  each_char c; try discriminate H; by rewrite H.
Qed.

Lemma limit_value_of_int (n : Z) :
  (- 2 ^ 63 < n < 2 ^ 63)%Z → Sql.limit_value (PyStr.of_int n) = Some n.
Proof.
  intros Hn.
  assert (Sql.in_range n = Some n) as Hr.
  { unfold Sql.in_range.
    destruct (Z.ltb_spec (- 2 ^ 63) n), (Z.ltb_spec n (2 ^ 63)); simpl; (done || lia). }
  unfold PyStr.of_int. destruct n as [| p | p]; simpl.
  - done.
  - rewrite limit_value_digits by apply all_digits_of_uint.
    rewrite NilZero.usu by apply DecimalPos.Unsigned.to_uint_nonnil. simpl.
    unfold Z.of_uint. by rewrite DecimalPos.Unsigned.of_to.
  - unfold Sql.limit_value. rewrite all_digits_of_uint.
    rewrite NilZero.usu by apply DecimalPos.Unsigned.to_uint_nonnil. simpl.
    unfold Z.of_uint. by rewrite DecimalPos.Unsigned.of_to.
Qed.

(** ** C9: [get_table_preview] on a plain table name *)

Lemma table_ref_plain (w key : string) :
  Sql.table_ref w = Some key →
  key = sql_fold w
  ∧ Sql.lexemes w = [w]
  ∧ Sql.all_digits w = false.
Proof.
  unfold Sql.table_ref.
  destruct (Sql.plain_identifier w) eqn:Hp; [| done]. simpl.
  destruct (bool_decide _); simpl; [done |].
  destruct (Sql.engine_name _); simpl; [done |]. intros [= <-].
  split; [done |].
  destruct w as [| c r]; [done |]. simpl in Hp.
  apply andb_prop in Hp as [Hc Hr]. split.
  - apply lexemes_whole; [done |]. simpl.
    rewrite (ident_char_not_blank c) by by apply ident_start_char. simpl.
    by apply (no_blank_of Sql.ident_char), Hr; apply ident_char_not_blank.
  - unfold Sql.all_digits. simpl. by rewrite (ident_start_not_digit c Hc).
Qed.

Lemma select_plain_name (conn : Store) (table_name key : string) (rows : Z) :
  Sql.table_ref table_name = Some key →
  (- 2 ^ 63 < rows < 2 ^ 63)%Z →
  Sql.sqlite_select (preview_sql table_name rows) conn
  = Sql.read_table table_name rows conn.
Proof.
  intros Hk Hr. destruct (table_ref_plain _ _ Hk) as (_ & Hlex & Hnum).
  unfold Sql.sqlite_select. rewrite lexemes_preview_sql, Hlex. cbn [app].
  change (Sql.is_keyword "select" "SELECT") with true.
  change (Sql.is_keyword "from" "FROM") with true.
  change (Sql.is_keyword "limit" "LIMIT") with true.
  change ("*" =? "*")%string with true. cbn [andb].
  by rewrite (limit_value_of_int rows Hr), Hnum.
Qed.

(** C9, as the code has it.  For every store, every table name that is a
    plain SQL identifier (a letter or underscore followed by letters, digits
    and underscores, not a keyword and not a name of the engine's own) and
    every limit that fits a 64-bit integer: when no table of that name
    exists, get_table_preview fails with SQLite's "no such table"; when one
    exists, it returns the table's columns and, for a limit that is not
    negative, the first [limit] rows, so at most [limit] rows and at most 5
    with the default; for a negative limit it returns every row. *)
Theorem preview_of_plain_name (fs : Files) (database table_name key : string)
    (rows : Z) :
  Sql.table_ref table_name = Some key →
  (- 2 ^ 63 < rows < 2 ^ 63)%Z →
  match connect fs database !! key with
  | Some tbl =>
      ∃ df, get_table_preview database table_name rows fs = Some (inr df)
            ∧ columns df = t_columns tbl
            ∧ data df = (if (rows <? 0)%Z then t_rows tbl
                         else take (Z.to_nat rows) (t_rows tbl))
            ∧ ((0 ≤ rows)%Z → (Z.of_nat (len df) ≤ rows)%Z)
            ∧ (rows = default_rows → (len df ≤ 5)%nat)
  | None =>
      get_table_preview database table_name rows fs
      = Some (inl (SqliteError (NoSuchTable table_name)))
  end.
Proof.
  intros Hk Hr. unfold get_table_preview.
  rewrite (select_plain_name _ _ key) by done.
  unfold Sql.read_table. rewrite Hk.
  destruct (connect fs database !! key) as [tbl |]; [| done].
  eexists. split; [reflexivity |]. unfold Sql.limit_rows, len.
  destruct (Z.ltb_spec rows 0) as [Hneg | Hpos]; simpl.
  - split; [done |]. split; [done |]. split; [lia |].
    unfold default_rows. lia.
  - split; [done |]. split; [done |].
    rewrite length_take.
    split; [lia |]. unfold default_rows. intros ->.
    change (Z.to_nat 5) with 5. lia.
Qed.

(** The table items, previewed with the default limit. *)
Lemma preview_of_plain_name_witness :
  get_table_preview Examples.database "items" default_rows Examples.items_files
  = Some (inr (mkFrame ["item"] [ [CText "pen"]; [CText "ink"] ]))
  ∧ get_table_preview Examples.database "prices" default_rows Examples.items_files
    = Some (inl (SqliteError (NoSuchTable "prices"))).
Proof.
  split.
  - pose proof (preview_of_plain_name Examples.items_files Examples.database
                  "items" "items" default_rows) as H.
    destruct H as (df & Hdf & Hc & Hd & _); [reflexivity | done |].
    rewrite Hdf. destruct df as [c d]. simpl in Hc, Hd. by subst.
  - apply (preview_of_plain_name Examples.items_files Examples.database
             "prices" "prices" default_rows); [reflexivity | done].
Defined.

(** C9 as the specification words it fails.  A limit does not always bound
    the rows, and a missing table does not always make the call fail: with the limit -1 both rows of the table
    items come back, and the name "items i", under which the file holds no
    table, reads the table items. *)
Lemma preview_unbounded_or_found :
  (∃ df, get_table_preview Examples.database "items" (-1) Examples.items_files
         = Some (inr df)
         ∧ ¬ (Z.of_nat (len df) ≤ -1)%Z)
  ∧ connect Examples.items_files Examples.database !! "items i" = None
  ∧ ∃ df, get_table_preview Examples.database "items i" default_rows
            Examples.items_files = Some (inr df).
Proof.
  split; [| split].
  - eexists. split; [vm_compute; reflexivity |]. vm_compute. done.
  - vm_compute. reflexivity.
  - eexists. vm_compute. reflexivity.
Qed.

(** ** C10: table names the preview statement misreads *)

Lemma sanitize_table_digits (sheet : string) :
  Sql.all_digits sheet = true → sanitize_table sheet = sheet.
Proof.
  unfold Sql.all_digits. intros [_ Hd]%andb_prop.
  apply chars_inj. rewrite chars_sanitize_table.
  induction (PyStr.chars sheet) as [| c l IH]; [done |].
  simpl in Hd. apply andb_prop in Hd as [Hc Hl].
  destruct (digit_retained c Hc) as [Hkeep Hlow].
  rewrite filter_cons_True by done. simpl. by rewrite Hlow, IH.
Qed.

Lemma check_identifiers_empty_name (cols : list string) :
  is_Some (check_identifiers (cols ++ [""])).
Proof.
  induction cols as [| c cols IH]; simpl; [by eexists |].
  destruct (check_identifier c); [by eexists | done].
Qed.

(** A sheet whose name cleans to the empty string is refused before the
    file is touched. *)
Lemma convert_sheet_empty_name (sheet : string) (df : DataFrame label) (conn : Store) :
  sanitize_table sheet = "" → ∃ e, convert_sheet sheet df conn = (conn, inl e).
Proof.
  intros Hname. unfold convert_sheet, to_sql.
  destruct (clean_columns _) as [e | cols]; [by exists e |].
  cbv zeta. simpl columns. rewrite Hname.
  destruct (check_identifiers_empty_name cols) as [e ->]. by exists e.
Qed.

Lemma select_digits_name (conn : Store) (table_name : string) (rows : Z) :
  Sql.all_digits table_name = true →
  (- 2 ^ 63 < rows < 2 ^ 63)%Z →
  Sql.sqlite_select (preview_sql table_name rows) conn
  = Sql.Fails (SyntaxErrorNear table_name).
Proof.
  intros Hd Hr. destruct (all_digits_plain _ Hd) as [H1 H2].
  unfold Sql.sqlite_select.
  rewrite lexemes_preview_sql, (lexemes_whole table_name) by done. cbn [app].
  change (Sql.is_keyword "select" "SELECT") with true.
  change (Sql.is_keyword "from" "FROM") with true.
  change (Sql.is_keyword "limit" "LIMIT") with true.
  change ("*" =? "*")%string with true. cbn [andb].
  by rewrite (limit_value_of_int rows Hr), Hd.
Qed.

Lemma select_aliased_name (conn : Store) (t a kt ka : string) (rows : Z) :
  Sql.table_ref t = Some kt → Sql.table_ref a = Some ka →
  (- 2 ^ 63 < rows < 2 ^ 63)%Z →
  Sql.sqlite_select (preview_sql (t +:+ " " +:+ a) rows) conn
  = Sql.read_table t rows conn.
Proof.
  intros Ht Ha Hr.
  destruct (table_ref_plain _ _ Ht) as (_ & Hlt & Hnum).
  destruct (table_ref_plain _ _ Ha) as (_ & Hla & _).
  unfold Sql.sqlite_select. rewrite lexemes_preview_sql.
  change (t +:+ " " +:+ a) with (t +:+ String " " a).
  rewrite lexemes_app, Hlt, Hla. cbn [app].
  change (Sql.is_keyword "select" "SELECT") with true.
  change (Sql.is_keyword "from" "FROM") with true.
  change (Sql.is_keyword "limit" "LIMIT") with true.
  change ("*" =? "*")%string with true. cbn [andb].
  by rewrite (limit_value_of_int rows Hr), Ha, Hnum.
Qed.

(** C10, as the code has it.  get_table_preview splices table_name and rows
    into the statement text as they stand, without quoting or validation, so
    the name is read as SQL and not as an opaque name: the blank-separated
    pieces of the name become lexemes of the statement, and a name made of
    two plain identifiers reads the table called by the first.  Some tables
    that materialization creates cannot be previewed: a sheet whose name
    consists of decimal digits only (such as 2024) and whose frame converts
    is written under that very name, and previewing it fails with a syntax
    error although its data is in the file.  The empty name is not such a
    case: a sheet whose name cleans to the empty string is refused and
    nothing is written for it. *)
Theorem preview_reads_name_as_sql :
  (∀ table_name rows,
     preview_sql table_name rows
     = "SELECT * FROM " +:+ table_name +:+ " LIMIT " +:+ PyStr.of_int rows
     ∧ Sql.lexemes (preview_sql table_name rows)
       = ["SELECT"; "*"; "FROM"] ++ Sql.lexemes table_name
         ++ ["LIMIT"; PyStr.of_int rows])
  ∧ (∀ sheet df database fs rows,
       Sql.all_digits sheet = true → convertible sheet df = true →
       (- 2 ^ 63 < rows < 2 ^ 63)%Z →
       ∃ fs' tbl,
         excel_to_database [(sheet, df)] database None fs
         = (fs', inr (database, [mkInfo sheet sheet (len df) (t_columns tbl)]))
         ∧ sheet_table df = Some tbl
         ∧ connect fs' database !! sheet = Some tbl
         ∧ get_table_preview database sheet rows fs'
           = Some (inl (SqliteError (SyntaxErrorNear sheet))))
  ∧ (∀ t a kt ka database fs rows,
       Sql.table_ref t = Some kt → Sql.table_ref a = Some ka →
       (- 2 ^ 63 < rows < 2 ^ 63)%Z →
       get_table_preview database (t +:+ " " +:+ a) rows fs
       = get_table_preview database t rows fs)
  ∧ (∀ sheet df conn,
       sanitize_table sheet = "" →
       ∃ e, convert_sheet sheet df conn = (conn, inl e)).
Proof.
  split; [| split; [| split]].
  - intros table_name rows. split; [reflexivity | apply lexemes_preview_sql].
  - intros sheet df database fs rows Hd Hconv Hr.
    pose proof (sanitize_table_digits sheet Hd) as Hname.
    destruct (sheet_write_convertible sheet df Hconv) as (cols & Hcols & Hw).
    destruct (convert_sheet_convertible sheet df (connect fs database) Hconv)
      as (info & Hinfo & Hturn).
    destruct (sheet_info_fields sheet df info Hinfo) as (cols' & Hcols' & ->).
    assert (cols' = cols) as -> by congruence.
    rewrite Hname in *.
    eexists _, (mkTable cols (stored_rows (data df))). split; [| split; [| split]].
    + unfold excel_to_database, load_sheets, read_excel_all. cbn [fold_left dict_set fst snd].
      cbn [convert_sheets]. rewrite Hturn. reflexivity.
    + unfold sheet_table. by rewrite Hcols.
    + rewrite connect_insert, Hw. simpl. by rewrite lookup_partial_alter_eq.
    + unfold get_table_preview. by rewrite select_digits_name.
  - intros t a kt ka database fs rows Ht Ha Hr. unfold get_table_preview.
    by rewrite (select_aliased_name _ t a kt ka), (select_plain_name _ t kt).
  - intros sheet df conn. apply convert_sheet_empty_name.
Qed.

(** The sheet "2024": written, and not previewable. *)
Lemma preview_reads_name_as_sql_witness :
  ∃ fs' tbl,
    excel_to_database [("2024", Examples.item_frame)] Examples.database None ∅
    = (fs', inr (Examples.database, [mkInfo "2024" "2024" 2 (t_columns tbl)]))
    ∧ connect fs' Examples.database !! "2024" = Some tbl
    ∧ get_table_preview Examples.database "2024" default_rows fs'
      = Some (inl (SqliteError (SyntaxErrorNear "2024"))).
Proof.
  destruct preview_reads_name_as_sql as (_ & Hdigits & _).
  destruct (Hdigits "2024" Examples.item_frame Examples.database ∅ default_rows)
    as (fs' & tbl & Hrun & _ & Hstored & Hpreview);
    [reflexivity | reflexivity | done |].
  by exists fs', tbl.
Defined.

(** C10 as worded fails on its example.  The empty table name is not one
    that materialization creates: a sheet
    named "#!? -" cleans to the empty name, the conversion raises, and no
    table is written, so there is no written table whose preview fails. *)
Lemma empty_name_never_written :
  let run := excel_to_database [("#!? -", Examples.item_frame)]
               Examples.database None ∅ in
  sanitize_table "#!? -" = ""
  ∧ (¬ ∃ report, run.2 = inr report)
  ∧ run.2 = inl (ValueError "Empty table or column name specified")
  ∧ connect run.1 Examples.database = ∅.
Proof.
  cbv zeta. split; [reflexivity |]. split; [| split].
  - intros (report & H). vm_compute in H. discriminate.
  - vm_compute. reflexivity.
  - vm_compute. reflexivity.
Qed.

(** * Further properties of the code *)

(** ** The clean-up functions applied twice, and what they never leave *)

Lemma column_rule_twice (c : ascii) : column_rule (column_rule c) = column_rule c.
Proof. each_char c; reflexivity. Qed.

Lemma column_rule_never (c : ascii) :
  PyStr.eqc (column_rule c) " " = false
  ∧ PyStr.eqc (column_rule c) "-" = false
  ∧ ascii_upper (column_rule c) = false.
Proof. each_char c; repeat split; reflexivity. Qed.

(** X1.  Cleaning a column name a second time changes nothing. *)
Theorem sanitize_column_idempotent (s : string) :
  sanitize_column (sanitize_column s) = sanitize_column s.
Proof.
  apply chars_inj. rewrite !chars_sanitize_column, map_map.
  apply map_ext. intros c. apply column_rule_twice.
Qed.

(** X2.  A cleaned column name holds no space, no hyphen and no capital
    letter A-Z. *)
Theorem sanitize_column_never (s : string) (c : ascii) :
  c ∈ PyStr.chars (sanitize_column s) →
  c ≠ " "%char ∧ c ≠ "-"%char ∧ ascii_upper c = false.
Proof.
  rewrite chars_sanitize_column. intros (x & -> & _)%list_elem_of_fmap.
  destruct (column_rule_never x) as (H1 & H2 & H3).
  split; [| split; [| done]].
  - intros E. rewrite E in H1. discriminate.
  - intros E. rewrite E in H2. discriminate.
Qed.

Lemma sanitize_column_never_witness :
  ("_"%char ≠ " "%char) ∧ ("_"%char ≠ "-"%char) ∧ ascii_upper "_" = false.
Proof.
  apply (sanitize_column_never "A B" "_"). vm_compute.
  apply list_elem_of_further, list_elem_of_here.
Defined.

Lemma ascii_lower_word (c : ascii) :
  ascii_word c = true →
  is_ascii (ascii_lower c) = true
  ∧ ascii_word (ascii_lower c) = true
  ∧ ascii_lower (ascii_lower c) = ascii_lower c.
Proof. each_char c; (discriminate || (intros _; repeat split; reflexivity)). Qed.

(** X3.  For an ASCII sheet name, cleaning the table name a second time
    changes nothing; the cleaned name is ASCII again and never longer than
    the sheet name it comes from. *)
Theorem sanitize_table_idempotent (s : string) :
  Forall (λ c, is_ascii c = true) (PyStr.chars s) →
  sanitize_table (sanitize_table s) = sanitize_table s
  ∧ Forall (λ c, is_ascii c = true) (PyStr.chars (sanitize_table s))
  ∧ (String.length (sanitize_table s) ≤ String.length s)%nat.
Proof.
  intros Hascii.
  pose proof (chars_sanitize_table_ascii s Hascii) as Hchars.
  assert (Forall (λ c, is_ascii c = true) (PyStr.chars (sanitize_table s))) as Hclean.
  { rewrite Hchars. apply Forall_fmap, Forall_forall.
    intros c [Hc _]%list_elem_of_filter. by apply ascii_lower_word. }
  split; [| split; [done |]].
  - apply chars_inj. rewrite (chars_sanitize_table_ascii _ Hclean), Hchars.
    clear. induction (PyStr.chars s) as [| c l IH]; [done |].
    rewrite filter_cons. destruct (decide (ascii_word c = true)) as [Hc | Hc]; [| done].
    destruct (ascii_lower_word c Hc) as (_ & Hw & Hl).
    cbn [map]. rewrite filter_cons, decide_True by done.
    cbn [map]. by rewrite Hl, IH.
  - rewrite <- !chars_length, Hchars, length_map. apply length_filter.
Qed.

Lemma sanitize_table_idempotent_witness :
  sanitize_table (sanitize_table "Q1-Report") = sanitize_table "Q1-Report".
Proof.
  apply (sanitize_table_idempotent "Q1-Report"). repeat constructor.
Defined.

(** ** Loading sheets *)

Lemma dict_get_keys {V} (k : string) (d : list (string * V)) :
  is_Some (dict_get k d) ↔ k ∈ d.*1.
Proof.
  induction d as [| [k' v'] d IH]; simpl.
  - split; [by intros [? ?] | by intros ?%elem_of_nil].
  - destruct (String.eqb_spec k' k) as [-> | Hne].
    + split; [intros _; by left | by eexists].
    + rewrite IH. split; [by right |].
      intros [E | H]%elem_of_cons; [congruence | done].
Qed.

Lemma dict_get_None {V} (k : string) (d : list (string * V)) :
  dict_get k d = None ↔ k ∉ d.*1.
Proof.
  by rewrite eq_None_not_Some, dict_get_keys.
Qed.

Lemma dict_set_same {V} (k : string) (v : V) (d : list (string * V)) :
  dict_get k d = Some v → dict_set k v d = d.
Proof.
  induction d as [| [k' v'] d IH]; simpl; [done |].
  destruct (String.eqb_spec k' k) as [-> | Hne].
  - by intros [= ->].
  - intros H. by rewrite IH.
Qed.

Lemma dict_get_app {V} (k : string) (d1 d2 : list (string * V)) :
  dict_get k (d1 ++ d2)
  = match dict_get k d1 with Some v => Some v | None => dict_get k d2 end.
Proof.
  induction d1 as [| [k' v'] d1 IH]; simpl; [done |].
  by destruct (String.eqb_spec k' k).
Qed.

Lemma read_all_nodup (sheets acc : list (string * DataFrame label)) :
  NoDup (acc.*1 ++ sheets.*1) →
  fold_left (λ d kv, dict_set kv.1 kv.2 d) sheets acc = acc ++ sheets.
Proof.
  revert acc. induction sheets as [| [k v] sheets IH]; intros acc Hnd; simpl.
  - by rewrite app_nil_r.
  - simpl in Hnd. rewrite dict_set_fresh.
    + rewrite IH; [by rewrite <- app_assoc |].
      rewrite fmap_app. simpl. by rewrite <- app_assoc.
    + apply NoDup_app in Hnd as (_ & Hdis & _). intros Hk.
      apply (Hdis k Hk). by left.
Qed.

(** A workbook whose sheet names are distinct loads as it stands. *)
Lemma read_excel_all_nodup (excel_file : Workbook) :
  NoDup excel_file.*1 → read_excel_all excel_file = excel_file.
Proof. intros H. unfold read_excel_all. by rewrite read_all_nodup. Qed.

Lemma read_excel_listed (excel_file : Workbook) (sheet : string) :
  sheet ∈ get_excel_sheets excel_file ↔ ∃ df, read_excel excel_file sheet = inr df.
Proof.
  unfold get_excel_sheets, read_excel. rewrite <- dict_get_keys.
  destruct (dict_get sheet excel_file) as [df |]; split.
  - intros _. by exists df.
  - intros _. by eexists.
  - by intros [? ?].
  - by intros [? ?].
Qed.

Lemma read_excel_unlisted (excel_file : Workbook) (sheet : string) :
  sheet ∉ get_excel_sheets excel_file ↔
  read_excel excel_file sheet
  = inl (ValueError ("Worksheet named '" +:+ sheet +:+ "' not found")).
Proof.
  unfold get_excel_sheets, read_excel. rewrite <- dict_get_None.
  by destruct (dict_get sheet excel_file) as [df |].
Qed.

Lemma convert_sheets_returns_all (excel_data : list (string * DataFrame label))
    (conn conn' : Store) (acc infos : list Info) :
  convert_sheets excel_data conn acc = (conn', inr infos) →
  Forall (λ sd, convertible sd.1 sd.2 = true) excel_data.
Proof.
  revert conn acc. induction excel_data as [| [s d] rest IH]; intros conn acc H.
  - constructor.
  - simpl in H. destruct (convertible s d) eqn:E.
    + constructor; [done |].
      destruct (convert_sheet_convertible s d conn E) as (info & _ & Ht).
      rewrite Ht in H. by eapply IH.
    + destruct (convert_sheet_not_convertible s d conn E) as (e & _ & Ht).
      rewrite Ht in H. done.
Qed.

(** X6.  A conversion returns normally exactly when the sheets load and
    every loaded sheet is one that converts: its headers are text, non-empty
    and free of NUL, between 1 and 2000 in number, and clean to column names
    that differ pairwise up to the case of A-Z; its name cleans to a table
    name that is non-empty and does not start with sqlite_; and its integer
    cells fit 64 bits.  In every other case the call raises. *)
Theorem excel_to_database_returns_iff (excel_file : Workbook) (database : string)
    (sheet_names : option (list string)) (fs : Files) :
  ((∃ fs' report, excel_to_database excel_file database sheet_names fs
                  = (fs', inr report))
   ↔ ∃ excel_data, load_sheets excel_file sheet_names = inr excel_data
                   ∧ Forall (λ sd, sheet_converts sd.1 sd.2) excel_data)
  ∧ ((∃ fs' e, excel_to_database excel_file database sheet_names fs = (fs', inl e))
     ∨ ∃ fs' report, excel_to_database excel_file database sheet_names fs
                     = (fs', inr report)).
Proof.
  split.
  - unfold excel_to_database. split.
    + intros (fs' & report & H).
      destruct (load_sheets _ _) as [e | excel_data]; [done |].
      exists excel_data. split; [done |].
      destruct (convert_sheets excel_data _ []) as [conn' [e | infos]] eqn:E; [done |].
      eapply Forall_impl; [by eapply convert_sheets_returns_all |].
      intros sd. apply convertible_iff.
    + intros (excel_data & -> & Hall).
      assert (Forall (λ sd, convertible sd.1 sd.2 = true) excel_data) as Hconv
        by (eapply Forall_impl; [exact Hall | intros sd; apply convertible_iff]).
      destruct (convert_sheets_all excel_data (connect fs database) [] Hconv)
        as (infos & -> & _).
      by eexists _, _.
  - destruct (excel_to_database excel_file database sheet_names fs) as [fs' [e | r]].
    + left. by exists fs', e.
    + right. by exists fs', r.
Qed.

(** X7.  With no selection, a workbook whose sheets all convert yields one
    entry per sheet, in workbook order, each with its sheet's name, cleaned
    table name, row count and cleaned columns. *)
Theorem all_sheets_in_workbook_order (excel_file : Workbook) (database : string)
    (fs : Files) :
  NoDup (get_excel_sheets excel_file) →
  Forall (λ sd, convertible sd.1 sd.2 = true) excel_file →
  ∃ fs' infos,
    excel_to_database excel_file database None fs = (fs', inr (database, infos))
    ∧ map sheet_name infos = get_excel_sheets excel_file
    ∧ Forall2 (λ sd info, ∃ cols,
                 clean_columns (columns sd.2) = inr cols
                 ∧ info = mkInfo sd.1 (sanitize_table sd.1) (len sd.2) cols)
              excel_file infos.
Proof.
  intros Hnd Hall.
  destruct (convert_sheets_all excel_file (connect fs database) [] Hall)
    as (infos & Hrun & Hinfos).
  assert (Forall2 (λ sd info, ∃ cols,
                 clean_columns (columns sd.2) = inr cols
                 ∧ info = mkInfo sd.1 (sanitize_table sd.1) (len sd.2) cols)
              excel_file infos) as Hentries.
  { eapply Forall2_impl; [exact Hinfos |]. intros [s d] info Hi.
    by apply sheet_info_fields. }
  eexists _, infos. split; [| split; [| done]].
  - unfold excel_to_database, load_sheets.
    rewrite read_excel_all_nodup by done. rewrite Hrun. reflexivity.
  - unfold get_excel_sheets. clear -Hentries.
    induction Hentries as [| [s d] info l k (cols & _ & ->) _ IH]; simpl; [done |].
    by rewrite IH.
Qed.

Lemma all_sheets_in_workbook_order_witness :
  ∃ fs' infos,
    excel_to_database (Examples.sales_workbook Examples.two_rows [])
      Examples.database None ∅ = (fs', inr (Examples.database, infos))
    ∧ map sheet_name infos = ["Sales Data"; "Q1-Report"].
Proof.
  destruct (all_sheets_in_workbook_order
              (Examples.sales_workbook Examples.two_rows []) Examples.database ∅)
    as (fs' & infos & Hrun & Hnames & _).
  - apply (bool_decide_unpack _). vm_compute. reflexivity.
  - repeat constructor.
  - by exists fs', infos.
Defined.

(** ** Selections that name a missing sheet, or a sheet twice *)

Lemma read_selected_app (excel_file : Workbook) (pre post : list string)
    (acc : list (string * DataFrame label)) :
  read_selected excel_file (pre ++ post) acc
  = match read_selected excel_file pre acc with
    | inl e => inl e
    | inr acc' => read_selected excel_file post acc'
    end.
Proof.
  revert acc. induction pre as [| s pre IH]; intros acc; simpl; [done |].
  by destruct (read_excel excel_file s).
Qed.

Lemma read_selected_found (excel_file : Workbook) (sheet_names : list string)
    (acc : list (string * DataFrame label)) :
  Forall (λ s, s ∈ get_excel_sheets excel_file) sheet_names →
  ∃ acc', read_selected excel_file sheet_names acc = inr acc'.
Proof.
  revert acc. induction sheet_names as [| s rest IH]; intros acc Hall; simpl.
  - by eexists.
  - apply Forall_cons in Hall as [Hs Hall].
    apply read_excel_listed in Hs as [df ->]. by apply IH.
Qed.

(** X8.  When the selection names a sheet the workbook does not have, the
    conversion raises the ValueError naming the first such sheet, and the
    database keeps the tables it had: no selected sheet is written, not even
    those named before the missing one. *)
Theorem missing_sheet_writes_nothing (excel_file : Workbook) (database : string)
    (pre post : list string) (sheet : string) (fs : Files) :
  Forall (λ s, s ∈ get_excel_sheets excel_file) pre →
  sheet ∉ get_excel_sheets excel_file →
  let run := excel_to_database excel_file database (Some (pre ++ sheet :: post)) fs in
  run.2 = inl (ValueError ("Worksheet named '" +:+ sheet +:+ "' not found"))
  ∧ connect run.1 database = connect fs database.
Proof.
  intros Hpre Hmiss run. unfold run, excel_to_database, load_sheets.
  rewrite read_selected_app.
  destruct (read_selected_found excel_file pre [] Hpre) as [acc' ->].
  simpl. apply read_excel_unlisted in Hmiss as ->. simpl.
  split; [done | apply connect_insert].
Qed.

Lemma missing_sheet_writes_nothing_witness :
  (excel_to_database (Examples.sales_workbook Examples.two_rows [])
     Examples.database (Some ["Sales Data"; "Summary"; "Q1-Report"]) ∅).2
  = inl (ValueError "Worksheet named 'Summary' not found").
Proof.
  apply (missing_sheet_writes_nothing (Examples.sales_workbook Examples.two_rows [])
           Examples.database ["Sales Data"] ["Q1-Report"] "Summary" ∅).
  - repeat constructor.
  - intros H. vm_compute in H.
    repeat (apply elem_of_cons in H as [H | H]; [discriminate |]).
    by apply elem_of_nil in H.
Defined.

Lemma first_occurrences_from_proper (seen seen' : gset string) (l : list string) :
  seen = seen' → first_occurrences_from seen l = first_occurrences_from seen' l.
Proof. by intros ->. Qed.

Lemma read_selected_first_occurrences (excel_file : Workbook)
    (sheet_names : list string) (acc : list (string * DataFrame label)) :
  (∀ k, k ∈ acc.*1 → dict_get k acc = dict_get k excel_file) →
  read_selected excel_file sheet_names acc
  = read_selected excel_file
      (first_occurrences_from (list_to_set acc.*1) sheet_names) acc.
Proof.
  revert acc. induction sheet_names as [| s rest IH]; intros acc Hacc; [done |].
  cbn [first_occurrences_from read_selected].
  destruct (decide (s ∈ list_to_set (C := gset string) acc.*1)) as [Hin | Hout].
  - apply elem_of_list_to_set in Hin.
    pose proof (Hacc s Hin) as Hsame.
    apply dict_get_keys in Hin as [df Hdf].
    unfold read_excel. rewrite <- Hsame, Hdf.
    rewrite dict_set_same by done. by apply IH.
  - rewrite elem_of_list_to_set in Hout.
    cbn [read_selected]. unfold read_excel.
    destruct (dict_get s excel_file) as [df |] eqn:Hdf; [| done].
    rewrite dict_set_fresh by done.
    rewrite IH.
    + f_equal. apply first_occurrences_from_proper.
      rewrite fmap_app, list_to_set_app_L.
      change ([(s, df)].*1) with [s].
      rewrite list_to_set_singleton_L. apply (comm_L (∪)).
    + intros k Hk. rewrite dict_get_app.
      rewrite fmap_app in Hk. apply elem_of_app in Hk as [Hk | Hk].
      * rewrite <- (Hacc k Hk). apply dict_get_keys in Hk as [v ->]. done.
      * simpl in Hk. apply list_elem_of_singleton in Hk as ->.
        apply dict_get_None in Hout. rewrite Hout. simpl.
        by rewrite String.eqb_refl.
Qed.

Lemma first_occurrences_from_spec (seen : gset string) (l : list string) :
  NoDup (first_occurrences_from seen l)
  ∧ ∀ x, x ∈ first_occurrences_from seen l ↔ x ∈ l ∧ x ∉ seen.
Proof.
  revert seen. induction l as [| s l IH]; intros seen; cbn [first_occurrences_from].
  - split; [constructor |]. intros x. split; [by intros ?%elem_of_nil |].
    by intros [?%elem_of_nil _].
  - destruct (decide (s ∈ seen)) as [Hs | Hs].
    + destruct (IH seen) as [Hnd Hel]. split; [done |].
      intros x. rewrite Hel, elem_of_cons. split; [intros [? ?]; by auto |].
      intros [[-> | Hx] Hn]; [done | by split].
    + destruct (IH ({[s]} ∪ seen)) as [Hnd Hel]. split.
      * constructor; [| done]. rewrite Hel, elem_of_union, elem_of_singleton.
        intros [_ Hn]. apply Hn. by left.
      * intros x. rewrite !elem_of_cons, Hel, elem_of_union, elem_of_singleton.
        split.
        -- intros [-> | [Hx Hn]]; [by split; [left |] |].
           split; [by right |]. intros Hxs. apply Hn. by right.
        -- intros [[-> | Hx] Hn]; [by left |].
           destruct (decide (x = s)) as [-> | Hne]; [by left |].
           right. split; [done |]. by intros [? | ?].
Qed.

(** X9.  Naming a sheet more than once in the selection changes nothing:
    the conversion behaves as for the selection with each name kept at its
    first occurrence only, which has no repetition and the same names. *)
Theorem repeated_selection_collapses (excel_file : Workbook) (database : string)
    (sheet_names : list string) (fs : Files) :
  excel_to_database excel_file database (Some sheet_names) fs
  = excel_to_database excel_file database (Some (first_occurrences sheet_names)) fs
  ∧ NoDup (first_occurrences sheet_names)
  ∧ ∀ s, s ∈ first_occurrences sheet_names ↔ s ∈ sheet_names.
Proof.
  split; [| split].
  - unfold excel_to_database, load_sheets, first_occurrences.
    rewrite (read_selected_first_occurrences excel_file sheet_names []); [done |].
    intros k Hk. by apply elem_of_nil in Hk.
  - apply first_occurrences_from_spec.
  - intros s. unfold first_occurrences.
    destruct (first_occurrences_from_spec ∅ sheet_names) as [_ ->].
    split; [by intros [? _] |]. intros Hs. split; [done |]. apply not_elem_of_empty.
Qed.

(** ** A header that is not text *)

Lemma clean_columns_object (texts : list string) (type_name : string)
    (later : list label) :
  clean_columns (map LStr texts ++ LObj type_name :: later)
  = inl (AttributeError ("'" +:+ type_name +:+ "' object has no attribute 'lower'")).
Proof. induction texts as [| t texts IH]; simpl; [done | by rewrite IH]. Qed.

(** X10.  A sheet with a header that is not text (a number, a boolean, a
    date) makes the conversion raise the AttributeError of [col.lower()],
    which names the type of the first such header; the sheet itself changes
    nothing in the database, which is left exactly as the conversion of the
    sheets before it leaves it, and the sheets after it are not converted. *)
Theorem non_text_header_raises (excel_file : Workbook) (database : string)
    (sheet_names : option (list string)) (fs : Files)
    (done_ rest : list (string * DataFrame label))
    (sheet : string) (df : DataFrame label)
    (texts : list string) (type_name : string) (later : list label) :
  load_sheets excel_file sheet_names = inr (done_ ++ (sheet, df) :: rest) →
  Forall (λ sd, convertible sd.1 sd.2 = true) done_ →
  columns df = map LStr texts ++ LObj type_name :: later →
  excel_to_database excel_file database sheet_names fs
  = (<[database := (convert_sheets done_ (connect fs database) []).1]> fs,
     inl (AttributeError ("'" +:+ type_name +:+ "' object has no attribute 'lower'"))).
Proof.
  intros Hload Hdone Hcols.
  pose proof (clean_columns_object texts type_name later) as Hclean.
  rewrite <- Hcols in Hclean.
  assert (convertible sheet df = false) as Hbad
    by (unfold convertible, convert_sheet; by rewrite Hclean).
  destruct (convert_sheets_stops done_ rest sheet df (connect fs database) [] Hdone Hbad)
    as (e & He & Hrun).
  unfold excel_to_database. rewrite Hload, Hrun.
  unfold convert_sheet in He. rewrite Hclean in He. injection He as <-.
  unfold sheet_write. rewrite Hclean. simpl.
  by rewrite convert_sheets_store.
Qed.

(** A header cell holding the number 2021, in the second of two sheets. *)
Lemma non_text_header_raises_witness :
  excel_to_database
    [("Items", Examples.item_frame); ("Stock", Examples.year_frame)]
    Examples.database None ∅
  = (<[Examples.database :=
         (convert_sheets [("Items", Examples.item_frame)]
            (connect ∅ Examples.database) []).1]> ∅,
     inl (AttributeError "'int' object has no attribute 'lower'")).
Proof.
  apply (non_text_header_raises _ _ None ∅ [("Items", Examples.item_frame)] []
           "Stock" Examples.year_frame ["Item"] "int" []).
  - reflexivity.
  - repeat constructor.
  - reflexivity.
Defined.

(** ** Two sheets that clean to the same table name *)

(** X11.  When two sheets of a conversion that returns clean to the same
    table name, both are reported, under that one table name, but the table
    holds the later sheet only: the earlier sheet's rows are overwritten
    without any error. *)
Theorem table_name_collision_last_wins (excel_file : Workbook) (database : string)
    (sheet_names : option (list string)) (fs : Files)
    (excel_data : list (string * DataFrame label)) (i j : nat)
    (s1 s2 : string) (d1 d2 : DataFrame label) :
  load_sheets excel_file sheet_names = inr excel_data →
  Forall (λ sd, convertible sd.1 sd.2 = true) excel_data →
  i < j →
  excel_data !! i = Some (s1, d1) → excel_data !! j = Some (s2, d2) →
  sanitize_table s1 = sanitize_table s2 →
  sanitize_table s2 ∉ map sanitize_table (drop (S j) excel_data).*1 →
  ∃ fs' infos i1 i2,
    excel_to_database excel_file database sheet_names fs
    = (fs', inr (database, infos))
    ∧ infos !! i = Some i1 ∧ infos !! j = Some i2
    ∧ sheet_name i1 = s1 ∧ sheet_name i2 = s2
    ∧ rows i1 = len d1 ∧ rows i2 = len d2
    ∧ table_name i1 = table_name i2
    ∧ connect fs' database !! table_name i1 = sheet_table d2.
Proof.
  intros Hload Hall Hij Hi Hj Hsame Hlater.
  destruct (convert_sheets_all excel_data (connect fs database) [] Hall)
    as (infos & Hrun & Hinfos).
  destruct (Forall2_lookup_l _ _ _ _ _ Hinfos Hi) as (i1 & Hi1 & Hf1).
  destruct (Forall2_lookup_l _ _ _ _ _ Hinfos Hj) as (i2 & Hi2 & Hf2).
  apply sheet_info_fields in Hf1 as (c1 & _ & ->).
  apply sheet_info_fields in Hf2 as (c2 & _ & ->).
  eexists _, infos, _, _. split.
  { unfold excel_to_database. rewrite Hload, Hrun. reflexivity. }
  do 6 (split; [done |]). split; [done |].
  rewrite connect_insert. simpl. rewrite Hsame.
  by apply (written_table_stays excel_data _ j).
Qed.

Lemma table_name_collision_last_wins_witness :
  ∃ fs' infos i1 i2,
    excel_to_database
      [("Sheet#1", Examples.item_frame);
       ("Sheet!1", mkFrame [LStr "Item"] [ [CText "nib"] ])]
      Examples.database None ∅ = (fs', inr (Examples.database, infos))
    ∧ infos !! 0 = Some i1 ∧ infos !! 1 = Some i2
    ∧ sheet_name i1 = "Sheet#1" ∧ sheet_name i2 = "Sheet!1"
    ∧ rows i1 = 2 ∧ rows i2 = 1
    ∧ table_name i1 = table_name i2
    ∧ connect fs' Examples.database !! table_name i1
      = Some (mkTable ["item"] [ [CText "nib"] ]).
Proof.
  apply (table_name_collision_last_wins _ _ None ∅
           [("Sheet#1", Examples.item_frame);
            ("Sheet!1", mkFrame [LStr "Item"] [ [CText "nib"] ])]
           0 1 "Sheet#1" "Sheet!1" Examples.item_frame
           (mkFrame [LStr "Item"] [ [CText "nib"] ])).
  - reflexivity.
  - repeat constructor.
  - lia.
  - reflexivity.
  - reflexivity.
  - reflexivity.
  - simpl. apply not_elem_of_nil.
Defined.

(** ** Converting, then previewing *)

(** X12.  After a conversion that returns, previewing a reported table whose
    name is a plain identifier and that no later sheet overwrote gives back
    the sheet, if it has no missing cell: its cleaned column names and its
    first [rows] rows in sheet order (all of them for a negative [rows]),
    with the cells as SQLite stores them (a boolean as 1 or 0, and in a
    column that mixes kinds every integer and boolean as text).  Sheets
    with missing cells are left out: pandas reads a column of integers with
    missing values back as floating-point numbers, which the cell model
    does not have. *)
Theorem preview_after_conversion (excel_file : Workbook) (database : string)
    (sheet_names : option (list string)) (fs : Files)
    (excel_data : list (string * DataFrame label)) (i : nat)
    (sheet key : string) (df : DataFrame label) (rows : Z) :
  load_sheets excel_file sheet_names = inr excel_data →
  Forall (λ sd, convertible sd.1 sd.2 = true) excel_data →
  excel_data !! i = Some (sheet, df) →
  sanitize_table sheet ∉ map sanitize_table (drop (S i) excel_data).*1 →
  Sql.table_ref (sanitize_table sheet) = Some key →
  (- 2 ^ 63 < rows < 2 ^ 63)%Z →
  forallb (forallb (λ c, negb (is_missing c))) (data df) = true →
  ∃ cols,
    clean_columns (columns df) = inr cols
    ∧ get_table_preview database (sanitize_table sheet) rows
        (excel_to_database excel_file database sheet_names fs).1
      = Some (inr (mkFrame cols
                     (if (rows <? 0)%Z then stored_rows (data df)
                      else take (Z.to_nat rows) (stored_rows (data df))))).
Proof.
  intros Hload Hall Hi Hlater Hkey Hrows _.
  destruct (written_table_stays excel_data (connect fs database) i sheet df
              Hall Hi Hlater) as [Hstored [tbl Htbl]].
  unfold sheet_table in Htbl.
  destruct (clean_columns (columns df)) as [e | cols] eqn:Hcols; [done |].
  injection Htbl as <-. exists cols. split; [done |].
  rewrite excel_to_database_closed_form, Hload. simpl fst.
  unfold get_table_preview. rewrite connect_insert.
  rewrite (select_plain_name _ _ key) by done.
  unfold Sql.read_table. rewrite Hkey.
  destruct (table_ref_plain _ _ Hkey) as (-> & _ & _).
  rewrite sanitize_table_folded, Hstored.
  unfold sheet_table. rewrite Hcols. unfold Sql.limit_rows.
  by destruct (rows <? 0)%Z.
Qed.

Lemma preview_after_conversion_witness :
  get_table_preview Examples.database "salesdata" 1
    (excel_to_database (Examples.sales_workbook Examples.two_rows [])
       Examples.database None ∅).1
  = Some (inr (mkFrame ["item_name"; "unit_price"] [ [CText "pen"; CNumber 2] ])).
Proof.
  destruct (preview_after_conversion
              (Examples.sales_workbook Examples.two_rows []) Examples.database
              None ∅ (Examples.sales_workbook Examples.two_rows []) 0
              "Sales Data" "salesdata"
              (mkFrame Examples.sales_columns Examples.two_rows) 1)
    as (cols & Hcols & Hpreview).
  - reflexivity.
  - repeat constructor.
  - reflexivity.
  - vm_compute. intros H.
    repeat (apply elem_of_cons in H as [H | H]; [discriminate |]).
    by apply elem_of_nil in H.
  - reflexivity.
  - done.
  - reflexivity.
  - vm_compute in Hcols. injection Hcols as <-. exact Hpreview.
Defined.

(** ** Tables the conversion does not name *)

Lemma dict_set_keys {V} (k k' : string) (v : V) (d : list (string * V)) :
  k ∈ (dict_set k' v d).*1 → k = k' ∨ k ∈ d.*1.
Proof.
  induction d as [| [k0 v0] d IH]; simpl.
  - intros [-> | H]%elem_of_cons; [by left | by right].
  - destruct (String.eqb_spec k0 k'); simpl.
    + intros H. by right.
    + intros [-> | H]%elem_of_cons; [right; by left |].
      destruct (IH H) as [-> | H']; [by left | right; by right].
Qed.

Lemma read_all_keys (sheets acc : list (string * DataFrame label)) (k : string) :
  k ∈ (fold_left (λ d kv, dict_set kv.1 kv.2 d) sheets acc).*1 →
  k ∈ acc.*1 ∨ k ∈ sheets.*1.
Proof.
  revert acc. induction sheets as [| [k' v] sheets IH]; intros acc; simpl.
  - by left.
  - intros H. destruct (IH _ H) as [H' | H']; [| right; by right].
    apply dict_set_keys in H' as [-> | H']; [right; by left | by left].
Qed.

Lemma read_selected_keys (excel_file : Workbook) (sheet_names : list string)
    (acc excel_data : list (string * DataFrame label)) (k : string) :
  read_selected excel_file sheet_names acc = inr excel_data →
  k ∈ excel_data.*1 → k ∈ acc.*1 ∨ k ∈ get_excel_sheets excel_file.
Proof.
  revert acc. induction sheet_names as [| s rest IH]; intros acc; simpl.
  - intros [= <-]. by left.
  - destruct (read_excel excel_file s) as [e | df] eqn:Hs; [done |].
    intros Hrun Hk. destruct (IH _ Hrun Hk) as [H | H]; [| by right].
    apply dict_set_keys in H as [-> | H]; [| by left].
    right. apply read_excel_listed. by exists df.
Qed.

Lemma load_sheets_keys (excel_file : Workbook) (sheet_names : option (list string))
    (excel_data : list (string * DataFrame label)) (k : string) :
  load_sheets excel_file sheet_names = inr excel_data →
  k ∈ excel_data.*1 → k ∈ get_excel_sheets excel_file.
Proof.
  destruct sheet_names as [sel |]; simpl.
  - intros Hrun Hk. destruct (read_selected_keys _ _ _ _ _ Hrun Hk) as [H | H]; [| done].
    by apply elem_of_nil in H.
  - intros [= <-] Hk. apply read_all_keys in Hk as [H | H]; [| done].
    by apply elem_of_nil in H.
Qed.

(** X13.  Whatever the outcome of a conversion, a table whose name is not
    the cleaned name of a sheet of the workbook is left in the database as it
    was, and so is every other database file. *)
Theorem other_tables_untouched (excel_file : Workbook) (database : string)
    (sheet_names : option (list string)) (fs : Files) (k : string) :
  k ∉ map sanitize_table (get_excel_sheets excel_file) →
  let run := excel_to_database excel_file database sheet_names fs in
  connect run.1 database !! k = connect fs database !! k
  ∧ ∀ path, path ≠ database → run.1 !! path = fs !! path.
Proof.
  intros Hk run. unfold run. rewrite excel_to_database_closed_form.
  destruct (load_sheets excel_file sheet_names) as [e | excel_data] eqn:Hload;
    simpl fst.
  - split; [by rewrite connect_insert |].
    intros path Hp. by rewrite lookup_insert_ne.
  - split; [| intros path Hp; by rewrite lookup_insert_ne].
    rewrite connect_insert, apply_writes_lookup.
    apply settle_untouched. intros name content Hin ->.
    apply Hk. apply loop_writes_names in Hin.
    apply list_elem_of_fmap in Hin as (s & -> & Hs).
    apply list_elem_of_fmap. exists s. split; [done |].
    by apply (load_sheets_keys _ _ _ _ Hload).
Qed.

Lemma other_tables_untouched_witness :
  connect (excel_to_database (Examples.sales_workbook Examples.two_rows [])
             Examples.database None Examples.items_files).1
    Examples.database !! "items"
  = connect Examples.items_files Examples.database !! "items".
Proof.
  apply (other_tables_untouched (Examples.sales_workbook Examples.two_rows [])
           Examples.database None Examples.items_files "items").
  vm_compute. intros H.
  repeat (apply elem_of_cons in H as [H | H]; [discriminate |]).
  by apply elem_of_nil in H.
Defined.

(** ** Previewing a table name that is blank *)

Lemma lexemes_blank (s : string) : blank_text s = true → Sql.lexemes s = [].
Proof.
  unfold blank_text, Sql.lexemes.
  induction s as [| c s IH]; simpl; [done |].
  intros [Hc Hs]%andb_prop. rewrite Hc.
  rewrite filter_cons_False by done. by apply IH.
Qed.

(** X14.  Previewing an empty table name, or one made of blanks only, fails
    with a syntax error at LIMIT, whatever the database holds. *)
Theorem preview_blank_name (database table_name : string) (rows : Z) (fs : Files) :
  blank_text table_name = true →
  (- 2 ^ 63 < rows < 2 ^ 63)%Z →
  get_table_preview database table_name rows fs
  = Some (inl (SqliteError (SyntaxErrorNear "LIMIT"))).
Proof.
  intros Hb Hr. unfold get_table_preview, Sql.sqlite_select.
  rewrite lexemes_preview_sql, (lexemes_blank _ Hb). cbn [app].
  change (Sql.is_keyword "select" "SELECT") with true.
  change (Sql.is_keyword "from" "FROM") with true.
  change (Sql.is_keyword "limit" "LIMIT") with true.
  change ("*" =? "*")%string with true. cbn [andb].
  rewrite (limit_value_of_int rows Hr).
  by rewrite bool_decide_eq_true_2.
Qed.

Lemma preview_blank_name_witness :
  get_table_preview Examples.database "" default_rows Examples.items_files
  = Some (inl (SqliteError (SyntaxErrorNear "LIMIT"))).
Proof.
  apply (preview_blank_name Examples.database "" default_rows); [reflexivity | done].
Defined.

(** ** The tables branch of [pdf_to_excel] *)

Lemma of_int_inj (a b : Z) : PyStr.of_int a = PyStr.of_int b → a = b.
Proof.
  unfold PyStr.of_int. intros H.
  apply DecimalZ.to_int_inj.
  assert (∀ z, NilZero.int_of_string (NilZero.string_of_int (Z.to_int z))
               = Some (Z.to_int z)) as Hback.
  { intros z. apply NilZero.isi; destruct z as [| p | p]; simpl; try done.
    - intros [= Hp]. by apply DecimalPos.Unsigned.to_uint_nonnil in Hp.
    - intros [= Hp]. by apply DecimalPos.Unsigned.to_uint_nonnil in Hp. }
  pose proof (Hback a) as Ha. rewrite H, Hback in Ha. by injection Ha.
Qed.





Lemma staged_sheets_tables (pdf : Pdf) :
  pdf_tables pdf ≠ [] → staged_sheets pdf = write_tables 0 (pdf_tables pdf).
Proof. unfold staged_sheets. by destruct (pdf_tables pdf). Qed.



Lemma write_tables_all_empty (i : nat) (tables : list (DataFrame label)) :
  Forall (λ t, frame_empty t = true) tables → write_tables i tables = [].
Proof.
  intros Hall. revert i.
  induction Hall as [| t rest Hte _ IH]; intros i; simpl; [done |].
  rewrite Hte. apply IH.
Qed.

(** X16.  When every table tabula finds is empty, pdf_to_excel writes no
    sheet and raises, even if the pages hold text: the text fallback is tried
    only when tabula returns no table at all. *)
Theorem empty_tables_raise (pdf : Pdf) :
  pdf_tables pdf ≠ [] →
  Forall (λ t, frame_empty t = true) (pdf_tables pdf) →
  staged_sheets pdf = []
  ∧ pdf_to_excel pdf
    = inl (Exception "Error converting PDF to Excel: At least one sheet must be visible").
Proof.
  intros Ht Hall.
  assert (staged_sheets pdf = []) as Hs
    by (rewrite staged_sheets_tables by done; by apply write_tables_all_empty).
  split; [done |]. unfold pdf_to_excel. by rewrite Hs.
Qed.

Lemma empty_tables_raise_witness :
  pdf_to_excel (mkPdf [mkFrame [LStr "a"] []] ["Invoice 17"])
  = inl (Exception "Error converting PDF to Excel: At least one sheet must be visible").
Proof.
  apply (empty_tables_raise (mkPdf [mkFrame [LStr "a"] []] ["Invoice 17"]));
    [discriminate | repeat constructor].
Defined.

(** ** The rows of the text fallback *)

Lemma lstrip_first (s : string) :
  PyStr.lstrip s = "" ∨ ∃ c, first_char (PyStr.lstrip s) = Some c ∧ PyStr.isspace c = false.
Proof.
  induction s as [| c s IH]; simpl; [by left |].
  destruct (PyStr.isspace c) eqn:E; [done |]. right. by exists c.
Qed.

Lemma rstrip_first (s : string) :
  PyStr.rstrip s = "" ∨ first_char (PyStr.rstrip s) = first_char s.
Proof.
  destruct s as [| c s]; simpl; [by left |].
  destruct (PyStr.rstrip s); [| by right].
  destruct (PyStr.isspace c); [by left | by right].
Qed.

Lemma rstrip_last (s : string) :
  PyStr.rstrip s = "" ∨ ∃ c, last_char (PyStr.rstrip s) = Some c ∧ PyStr.isspace c = false.
Proof.
  unfold last_char. induction s as [| c s IH]; simpl; [by left |].
  destruct (PyStr.rstrip s) as [| c' r'] eqn:E.
  - destruct (PyStr.isspace c) eqn:Ec; [by left |]. right. by exists c.
  - right. destruct IH as [IH | (x & Hx & Hs)]; [done |].
    exists x. split; [| done]. simpl in *. done.
Qed.

Lemma lstrip_chars (s : string) (c : ascii) :
  c ∈ PyStr.chars (PyStr.lstrip s) → c ∈ PyStr.chars s.
Proof.
  induction s as [| x s IH]; simpl; [done |].
  destruct (PyStr.isspace x); [| done]. intros H. right. by apply IH.
Qed.

Lemma rstrip_chars (s : string) (c : ascii) :
  c ∈ PyStr.chars (PyStr.rstrip s) → c ∈ PyStr.chars s.
Proof.
  induction s as [| x s IH]; simpl; [done |].
  destruct (PyStr.rstrip s) as [| c' r'] eqn:E.
  - destruct (PyStr.isspace x); simpl; [by intros ?%elem_of_nil |].
    intros [-> | H]%elem_of_cons; [by left | by apply elem_of_nil in H].
  - simpl. intros [-> | H]%elem_of_cons; [by left |]. right. by apply IH.
Qed.

Lemma split_where_pieces (p : ascii → bool) (s w : string) (c : ascii) :
  w ∈ PyStr.split_where p s → c ∈ PyStr.chars w → p c = false.
Proof.
  revert w. induction s as [| x s IH]; intros w; simpl.
  - intros ->%list_elem_of_singleton. by intros ?%elem_of_nil.
  - destruct (p x) eqn:Ex.
    + intros [-> | H]%elem_of_cons; [by intros ?%elem_of_nil | by apply IH].
    + pose proof (split_where_nonempty p s) as Hne.
      destruct (PyStr.split_where p s) as [| w0 ws]; [done |].
      intros [-> | H]%elem_of_cons.
      * simpl. intros [-> | Hc]%elem_of_cons; [done |].
        apply (IH w0); [by left | done].
      * apply IH. by right.
Qed.

(** X17.  Every row of the Content column is a trimmed, non-empty line:
    it is not the empty string, it neither starts nor ends with white space,
    and it holds no line feed. *)
Theorem text_rows_trimmed (pages : list string) (line : string) :
  line ∈ collect_text pages →
  line ≠ ""
  ∧ (∃ c, first_char line = Some c ∧ PyStr.isspace c = false)
  ∧ (∃ c, last_char line = Some c ∧ PyStr.isspace c = false)
  ∧ "010"%char ∉ PyStr.chars line.
Proof.
  rewrite collect_text_spec. unfold text_lines.
  intros (text & Hline & _)%list_elem_of_bind.
  apply list_elem_of_filter in Hline as [Hne Hline].
  apply list_elem_of_fmap in Hline as (raw & -> & Hraw).
  assert (PyStr.strip raw ≠ "") as Hnonempty
    by (intros E; rewrite E in Hne; discriminate).
  split; [done |]. unfold PyStr.strip in *.
  split; [| split].
  - destruct (rstrip_first (PyStr.lstrip raw)) as [E | ->]; [done |].
    destruct (lstrip_first raw) as [E | H]; [| done].
    rewrite E in Hnonempty. done.
  - by destruct (rstrip_last (PyStr.lstrip raw)) as [E | H].
  - intros Hc. apply rstrip_chars, lstrip_chars in Hc.
    pose proof (split_where_pieces _ _ _ _ Hraw Hc) as Hsep. done.
Qed.

Lemma text_rows_trimmed_witness :
  "pen  2" ≠ ""
  ∧ (∃ c, first_char "pen  2" = Some c ∧ PyStr.isspace c = false)
  ∧ (∃ c, last_char "pen  2" = Some c ∧ PyStr.isspace c = false)
  ∧ "010"%char ∉ PyStr.chars "pen  2".
Proof.
  apply (text_rows_trimmed (pdf_pages Examples.three_line_pdf) "pen  2").
  vm_compute. apply list_elem_of_further, list_elem_of_here.
Defined.

(** ** The sheet names of the tables branch *)

Lemma all_digits_of_nat (n : nat) : Sql.all_digits (PyStr.of_int (Z.of_nat n)) = true.
Proof.
  unfold PyStr.of_int. destruct (Z.of_nat n) as [| p | p] eqn:E; [done | | lia].
  apply all_digits_of_uint.
Qed.

Lemma sql_fold_digits (d : string) : Sql.all_digits d = true → sql_fold d = d.
Proof.
  unfold Sql.all_digits. intros [_ Hd]%andb_prop.
  induction d as [| c d IH]; simpl in *; [done |].
  apply andb_prop in Hd as [Hc Hd]. rewrite IH by done. f_equal.
  revert Hc. each_char c; (reflexivity || discriminate).
Qed.

Lemma digits_ident_chars (d : string) :
  Sql.all_digits d = true → forallb Sql.ident_char (PyStr.chars d) = true.
Proof.
  unfold Sql.all_digits. intros [_ Hd]%andb_prop.
  induction (PyStr.chars d) as [| c l IH]; simpl in *; [done |].
  apply andb_prop in Hd as [Hc Hd]. rewrite IH by done.
  rewrite andb_true_r. revert Hc. each_char c; (reflexivity || discriminate).
Qed.

Lemma sanitize_sheet_number (d : string) :
  Sql.all_digits d = true → sanitize_table ("Sheet" +:+ d) = "sheet" +:+ d.
Proof.
  intros Hd. apply chars_inj. rewrite chars_sanitize_table.
  pose proof (sanitize_table_digits d Hd) as Hsame.
  apply (f_equal PyStr.chars) in Hsame. rewrite chars_sanitize_table in Hsame.
  change (PyStr.chars ("Sheet" +:+ d))
    with ("S" :: "h" :: "e" :: "e" :: "t" :: PyStr.chars d)%char.
  rewrite !filter_cons_True by reflexivity.
  cbn [map]. rewrite Hsame. reflexivity.
Qed.

Lemma table_ref_sheet_number (d : string) :
  Sql.all_digits d = true →
  Sql.table_ref ("sheet" +:+ d) = Some ("sheet" +:+ d).
Proof.
  intros Hd. unfold Sql.table_ref.
  assert (sql_fold ("sheet" +:+ d) = "sheet" +:+ d) as ->
    by (simpl; by rewrite sql_fold_digits).
  assert (Sql.plain_identifier ("sheet" +:+ d) = true) as ->
    by (simpl; by rewrite digits_ident_chars).
  assert (Sql.engine_name ("sheet" +:+ d) = false) as ->.
  { unfold Sql.engine_name. apply orb_false_intro; [reflexivity |].
    apply bool_decide_eq_false_2. intros H.
    repeat (apply elem_of_cons in H as [H | H]; [discriminate H |]).
    by apply elem_of_nil in H. }
  rewrite bool_decide_eq_false_2; [done |].
  unfold Sql.keywords. intros H.
  repeat (apply elem_of_cons in H as [H | H]; [discriminate H |]).
  by apply elem_of_nil in H.
Qed.

(** X19.  The sheet names pdf_to_excel gives to tables, Sheet followed by a
    number, clean to table names that preview can read: the cleaned name is
    sheet followed by the same number, a plain identifier, and different
    numbers give different table names, so the tables of one PDF never
    overwrite one another. *)
Theorem pdf_sheet_names_clean (n m : nat) :
  let sheet (k : nat) := "Sheet" +:+ PyStr.of_int (Z.of_nat k) in
  sanitize_table (sheet n) = "sheet" +:+ PyStr.of_int (Z.of_nat n)
  ∧ Sql.table_ref (sanitize_table (sheet n)) = Some (sanitize_table (sheet n))
  ∧ (sanitize_table (sheet n) = sanitize_table (sheet m) → n = m).
Proof.
  cbv beta zeta.
  rewrite !sanitize_sheet_number by apply all_digits_of_nat.
  split; [done |]. split; [apply table_ref_sheet_number, all_digits_of_nat |].
  intros H. injection H as H. apply of_int_inj in H. lia.
Qed.

(** ** What a returned report always looks like *)

Lemma check_identifiers_none (names : list string) :
  check_identifiers names = None → "" ∉ names.
Proof.
  induction names as [| n names IH]; simpl; [by intros _ ?%elem_of_nil |].
  destruct (check_identifier n) eqn:E; [done |]. intros H.
  intros [<- | Hin]%elem_of_cons; [done | by apply IH].
Qed.

Lemma convertible_checks (sheet : string) (df : DataFrame label) :
  convertible sheet df = true →
  ∃ cols, clean_columns (columns df) = inr cols
          ∧ check_identifiers (cols ++ [sanitize_table sheet]) = None
          ∧ create_table_error (sanitize_table sheet) cols = None.
Proof.
  unfold convertible, convert_sheet, to_sql.
  destruct (clean_columns _) as [e | cols]; [done |]. cbv zeta. simpl columns.
  destruct (check_identifiers _) eqn:E1; [done |].
  destruct (create_table_error _ _) eqn:E2; [done |]. intros _. by exists cols.
Qed.

(** X21.  Every entry of a returned report is well formed: its table name is
    the cleaned sheet name and is not empty; it has at least one column and
    at most 2000; its column names are not empty and pairwise different, also
    when the case of A-Z is disregarded. *)
Theorem reported_entries_well_formed (excel_file : Workbook) (database : string)
    (sheet_names : option (list string)) (fs fs' : Files) (infos : list Info)
    (info : Info) :
  excel_to_database excel_file database sheet_names fs
  = (fs', inr (database, infos)) →
  info ∈ infos →
  table_name info = sanitize_table (sheet_name info)
  ∧ table_name info ≠ ""
  ∧ info_columns info ≠ []
  ∧ (length (info_columns info) ≤ max_columns)%nat
  ∧ ("" ∉ info_columns info)
  ∧ NoDup (map sql_fold (info_columns info)).
Proof.
  unfold excel_to_database. intros Hrun Hin.
  destruct (load_sheets _ _) as [e | excel_data]; [done |].
  destruct (convert_sheets excel_data _ []) as [conn' [e | infos']] eqn:E; [done |].
  injection Hrun as _ <-.
  pose proof (convert_sheets_returns_all _ _ _ _ _ E) as Hall.
  destruct (convert_sheets_all excel_data (connect fs database) [] Hall)
    as (infos'' & Hrun' & Hinfos).
  rewrite E in Hrun'. injection Hrun' as _ ->. simpl in Hin.
  apply list_elem_of_lookup in Hin as [i Hi].
  destruct (Forall2_lookup_r _ _ _ _ _ Hinfos Hi) as ([s d] & Hsd & Hinfo).
  simpl in Hinfo.
  assert (convertible s d = true) as Hconv.
  { rewrite Forall_forall in Hall. apply (Hall (s, d)).
    by eapply list_elem_of_lookup_2. }
  destruct (sheet_info_fields s d info Hinfo) as (cols & Hcols & ->).
  destruct (convertible_checks s d Hconv) as (cols' & Hcols' & Hids & Hcreate).
  assert (cols' = cols) as -> by congruence. simpl.
  apply check_identifiers_none in Hids.
  unfold create_table_error in Hcreate.
  destruct (String.prefix _ _); [done |].
  destruct (first_duplicate [] (take max_columns cols)) eqn:Hdup; [done |].
  destruct (Nat.ltb_spec max_columns (length cols)) as [Hmany | Hfew]; [done |].
  rewrite take_ge in Hdup by done.
  split; [done |]. split.
  { intros Hname. apply Hids. apply elem_of_app. right. rewrite Hname. by left. }
  split; [by destruct cols |]. split; [done |]. split.
  { intros Hc. apply Hids. apply elem_of_app. by left. }
  by apply (first_duplicate_none [] cols).
Qed.

Lemma reported_entries_well_formed_witness :
  let info := mkInfo "Sales Data" "salesdata" 2 ["item_name"; "unit_price"] in
  table_name info = sanitize_table (sheet_name info)
  ∧ table_name info ≠ ""
  ∧ info_columns info ≠ []
  ∧ (length (info_columns info) ≤ max_columns)%nat
  ∧ ("" ∉ info_columns info)
  ∧ NoDup (map sql_fold (info_columns info)).
Proof.
  apply (reported_entries_well_formed
           (Examples.sales_workbook Examples.two_rows []) Examples.database
           None ∅
           (excel_to_database (Examples.sales_workbook Examples.two_rows [])
              Examples.database None ∅).1
           [ mkInfo "Sales Data" "salesdata" 2 ["item_name"; "unit_price"];
             mkInfo "Q1-Report" "q1report" 0 ["item_name"; "unit_price"] ]).
  - vm_compute. reflexivity.
  - by left.
Defined.

(** ** An integer that SQLite cannot hold *)

(** X22.  A sheet that would convert but for an integer cell beyond 64 bits
    makes the conversion raise OverflowError.  By then its table has been
    created: the database holds, under the sheet's cleaned name, a table
    with the sheet's cleaned columns and no row at all (not even the rows
    above the oversized integer), in place of whatever was there; the rest
    of the database is as the sheets before it left it. *)
Theorem oversized_integer_leaves_empty_table (excel_file : Workbook)
    (database : string) (sheet_names : option (list string)) (fs : Files)
    (done_ rest : list (string * DataFrame label))
    (sheet : string) (df : DataFrame label) :
  load_sheets excel_file sheet_names = inr (done_ ++ (sheet, df) :: rest) →
  Forall (λ sd, convertible sd.1 sd.2 = true) done_ →
  sheet_converts sheet (mkFrame (columns df) []) →
  storable_rows (data df) = false →
  ∃ fs' cols,
    excel_to_database excel_file database sheet_names fs
    = (fs', inl (OverflowError "Python int too large to convert to SQLite INTEGER"))
    ∧ clean_columns (columns df) = inr cols
    ∧ connect fs' database !! sanitize_table sheet = Some (mkTable cols [])
    ∧ ∀ k, k ≠ sanitize_table sheet →
           connect fs' database !! k
           = (convert_sheets done_ (connect fs database) []).1 !! k.
Proof.
  intros Hload Hdone Hshape Hrows.
  apply convertible_iff, convertible_checks in Hshape as (cols & Hcols & Hids & Hcreate).
  simpl in Hcols.
  assert (∀ conn, convert_sheet sheet df conn
          = (<[sanitize_table sheet := mkTable cols []]> conn,
             inl (OverflowError "Python int too large to convert to SQLite INTEGER")))
    as Hturn.
  { intros conn. unfold convert_sheet, to_sql. rewrite Hcols. cbv zeta.
    simpl columns. simpl data. by rewrite Hids, Hcreate, Hrows. }
  assert (convertible sheet df = false) as Hbad
    by (unfold convertible; by rewrite Hturn).
  destruct (convert_sheets_stops done_ rest sheet df (connect fs database) [] Hdone Hbad)
    as (e & He & Hrun).
  rewrite Hturn in He. injection He as <-.
  eexists _, cols. split.
  { unfold excel_to_database. rewrite Hload, Hrun. reflexivity. }
  split; [done |]. rewrite connect_insert, convert_sheets_store.
  rewrite <- (convert_sheet_store sheet df), Hturn. simpl. split.
  - apply lookup_insert_eq.
  - intros k Hk. by rewrite lookup_insert_ne.
Qed.

(** A good sheet, then one whose second row holds 2^63. *)
Lemma oversized_integer_leaves_empty_table_witness :
  ∃ fs',
    excel_to_database
      [("Items", Examples.item_frame); ("Stock", Examples.big_frame)]
      Examples.database None ∅
    = (fs', inl (OverflowError "Python int too large to convert to SQLite INTEGER"))
    ∧ connect fs' Examples.database !! "stock" = Some (mkTable ["count"] []).
Proof.
  destruct (oversized_integer_leaves_empty_table
              [("Items", Examples.item_frame); ("Stock", Examples.big_frame)]
              Examples.database None ∅ [("Items", Examples.item_frame)] []
              "Stock" Examples.big_frame)
    as (fs' & cols & Hrun & Hcols & Hstored & _).
  - reflexivity.
  - repeat constructor.
  - apply convertible_iff. vm_compute. reflexivity.
  - reflexivity.
  - exists fs'. split; [exact Hrun |].
    vm_compute in Hcols. injection Hcols as <-. exact Hstored.
Defined.
